(** * Weather notifier: a shallow embedding of [bot.py]

    The program fetches an hourly forecast for two configured places,
    renders a text summary of today's 08:00-20:00 window and sends it once
    a day at 06:00 Asia/Manila.  This file embeds [fetch_weather] (as an
    answer of the environment), [build_message] and the scheduler loop
    [main], and states the properties of the specification over them.

    Conventions.
    - A Python [str] is a list of Unicode code points ([pystr]); slicing and
      [startswith] work on code points, as in Python.
    - A value decoded by [r.json()] is a [json]; Python's [None] is [JNull].
      Operations check the dynamic type of their argument and raise what
      Python raises.
    - A Python exception is a value of [exn]; fallible code returns
      [result A], and the loops of the program are folds in that monad.
    - The network, the clock and the chat endpoint are inputs of a daily
      cycle, gathered in the record [cycle]; what the program prints, sleeps
      and sends is a trace of [event]s.

    Limits of the model.
    - [int] recognises ASCII digits only.
    - Asia/Manila is the fixed offset +08:00, and ["%Y"] pads to four
      digits.
    - A sleep always returns; an interruption reaches the program only as
      an exception of the fetch or of the delivery. *)

From Stdlib Require Import ZArith QArith Qround Qabs List Bool Lia Lqa.
From Stdlib Require Import String Ascii DecimalString Sorted.
Import ListNotations.

Local Open Scope Z_scope.
Local Set Warnings "-register-all".

(** ** Exceptions and results *)

Inductive exn : Type :=
| KeyboardInterrupt      (* BaseException, not an Exception *)
| CancelledError         (* BaseException, not an Exception *)
| RequestException       (* requests.get: connection, timeout, ... *)
| JSONDecodeError        (* r.json(): the body is not JSON *)
| AttributeError
| TypeError
| IndexError
| KeyError
| ValueError
| OverflowError
| TelegramError.         (* bot.send_message: delivery failed *)

(** [except Exception] catches every class but the two that derive from
    [BaseException] directly. *)
Definition is_Exception (e : exn) : bool :=
  match e with
  | KeyboardInterrupt | CancelledError => false
  | _ => true
  end.

(** The spec's FetchError: a network or parse failure of [fetch_weather]. *)
Definition is_FetchError (e : exn) : bool :=
  match e with
  | RequestException | JSONDecodeError => true
  | _ => false
  end.

Inductive result (A : Type) : Type :=
| OK (a : A)
| Raise (e : exn).
Arguments OK {A} a.
Arguments Raise {A} e.

Definition rbind {A B : Type} (m : result A) (f : A -> result B) : result B :=
  match m with
  | OK a => f a
  | Raise e => Raise e
  end.

Declare Scope result_scope.
Delimit Scope result_scope with result.
Notation "x <- m ;; k" := (rbind m (fun x => k))
  (at level 61, m at next level, right associativity) : result_scope.
Notation "' p <- m ;; k" := (rbind m (fun x => match x with p => k end))
  (at level 61, p pattern, m at next level, right associativity) : result_scope.
Local Open Scope result_scope.

(** Left fold of a fallible step, as a [for] loop whose body may raise. *)
Fixpoint for_each {S X : Type} (body : S -> X -> result S) (xs : list X) (s : S)
  : result S :=
  match xs with
  | [] => OK s
  | x :: rest => s' <- body s x ;; for_each body rest s'
  end.

(** ** Strings *)

Definition pystr : Type := list N.

(** An ASCII literal as a [pystr]. *)
Definition u (s : string) : pystr :=
  map N_of_ascii (list_ascii_of_string s).

Definition NL : pystr := [10%N].
Definition DEGREE : pystr := [176%N].               (* U+00B0 *)
Definition RAIN_EMOJI : pystr := [127782%N; 65039%N]. (* U+1F326 U+FE0F *)
Definition SUN_EMOJI : pystr := [9728%N; 65039%N].    (* U+2600 U+FE0F *)

Fixpoint pystr_eqb (a b : pystr) : bool :=
  match a, b with
  | [], [] => true
  | c :: a', d :: b' => N.eqb c d && pystr_eqb a' b'
  | _, _ => false
  end.

(** [s.startswith(p)] *)
Fixpoint startswith (s p : pystr) : bool :=
  match p, s with
  | [], _ => true
  | c :: p', d :: s' => N.eqb c d && startswith s' p'
  | _ :: _, [] => false
  end.

(** [s[a:b]] for [0 <= a <= b]; out-of-range bounds are clamped. *)
Definition slice (a b : nat) (s : pystr) : pystr :=
  firstn (b - a) (skipn a s).

(** [sub in s] *)
Fixpoint contains (s sub : pystr) : bool :=
  startswith s sub ||
  match s with
  | [] => false
  | _ :: s' => contains s' sub
  end.

(** [str(z)] for an [int]. *)
Definition str_of_int (z : Z) : pystr :=
  u (NilZero.string_of_int (Z.to_int z)).

(** The white space [int] skips around a number: tab, line feed, vertical
    tab, form feed, carriage return and space, and the white space outside
    ASCII.  The separators U+001C to U+001F are not skipped, although
    [str.isspace] holds of them. *)
Definition is_space (c : N) : bool :=
  ((9 <=? c) && (c <=? 13) || (c =? 32) || (c =? 133)
   || (c =? 160) || (c =? 5760) || (8192 <=? c) && (c <=? 8202)
   || (c =? 8232) || (c =? 8233) || (c =? 8239) || (c =? 8287)
   || (c =? 12288))%N.

Fixpoint lstrip (s : pystr) : pystr :=
  match s with
  | c :: s' => if is_space c then lstrip s' else s
  | [] => []
  end.

Definition strip (s : pystr) : pystr := rev (lstrip (rev (lstrip s))).

Definition digit_value (c : N) : option Z :=
  if ((48 <=? c) && (c <=? 57))%N then Some (Z.of_N c - 48) else None.

(** Decimal digits, a single underscore allowed between two digits. *)
Fixpoint parse_digits (acc : Z) (after_digit : bool) (s : pystr) : option Z :=
  match s with
  | [] => if after_digit then Some acc else None
  | c :: s' =>
      match digit_value c with
      | Some d => parse_digits (10 * acc + d) true s'
      | None =>
          if (c =? 95)%N && after_digit then parse_digits acc false s'
          else None
      end
  end.

(** [int(s)] in base 10: surrounding white space, an optional sign, digits.
    Digits outside ASCII, which Python also accepts, are not recognised
    here. *)
Definition py_int (s : pystr) : result Z :=
  let body := strip s in
  let parsed :=
    match body with
    | 43%N :: ds => parse_digits 0 false ds
    | 45%N :: ds => option_map Z.opp (parse_digits 0 false ds)
    | _ => parse_digits 0 false body
    end in
  match parsed with
  | Some z => OK z
  | None => Raise ValueError
  end.


(** ** Decoded JSON values *)

(** A Python [float]: a finite double is the rational it denotes. *)
Inductive pyfloat : Type :=
| Finite (q : Q)
| PosInf
| NegInf
| NaN.

Inductive json : Type :=
| JNull
| JBool (b : bool)
| JInt (z : Z)
| JFloat (f : pyfloat)
| JStr (s : pystr)
| JList (items : list json)
| JDict (entries : list (pystr * json)).

Fixpoint assoc (k : pystr) (entries : list (pystr * json)) : option json :=
  match entries with
  | [] => None
  | (k', v) :: rest => if pystr_eqb k k' then Some v else assoc k rest
  end.

(** [d.get(k, default)]: only a dict has the method. *)
Definition dict_get (d : json) (k : pystr) (default : json) : result json :=
  match d with
  | JDict entries =>
      OK (match assoc k entries with Some v => v | None => default end)
  | _ => Raise AttributeError
  end.

(** [len(v)]; the entries of a decoded object have distinct keys. *)
Definition py_len (v : json) : result nat :=
  match v with
  | JList items => OK (List.length items)
  | JStr s => OK (List.length s)
  | JDict entries => OK (List.length entries)
  | _ => Raise TypeError
  end.

(** [v[i]] for an index [i >= 0].  The keys of a decoded object are
    strings, so an integer subscript of a dict is a [KeyError]. *)
Definition py_getitem (v : json) (i : nat) : result json :=
  match v with
  | JList items =>
      match nth_error items i with
      | Some x => OK x
      | None => Raise IndexError
      end
  | JStr s =>
      match nth_error s i with
      | Some c => OK (JStr [c])
      | None => Raise IndexError
      end
  | JDict _ => Raise KeyError
  | _ => Raise TypeError
  end.

(** [v >= 30] *)
Definition py_ge_30 (v : json) : result bool :=
  match v with
  | JInt z => OK (30 <=? z)
  | JBool b => OK false                (* True is 1, False is 0 *)
  | JFloat (Finite q) => OK (Qle_bool (30 # 1) q)
  | JFloat PosInf => OK true
  | JFloat NegInf | JFloat NaN => OK false
  | JNull | JStr _ | JList _ | JDict _ => Raise TypeError
  end.

(** Round half to even, on the exact value. *)
Definition round_half_even (q : Q) : Z :=
  let f := Qfloor q in
  match Qcompare (q - inject_Z f) (1 # 2) with
  | Lt => f
  | Gt => f + 1
  | Eq => if Z.even f then f else f + 1
  end.

(** [round(v)] with one argument. *)
Definition py_round (v : json) : result Z :=
  match v with
  | JInt z => OK z
  | JBool b => OK (if b then 1 else 0)
  | JFloat (Finite q) => OK (round_half_even q)
  | JFloat PosInf | JFloat NegInf => Raise OverflowError
  | JFloat NaN => Raise ValueError
  | JNull | JStr _ | JList _ | JDict _ => Raise TypeError
  end.

(** ** Configuration *)

Record config : Type := {
  CHAT_ID : option pystr;
  WORK_LATITUDE : pyfloat;
  WORK_LONGITUDE : pyfloat;
  HOME_LATITUDE : pyfloat;
  HOME_LONGITUDE : pyfloat
}.

Record location : Type := {
  name : pystr;
  lat : pyfloat;
  lon : pyfloat
}.

Definition LOCATIONS (c : config) : list location :=
  [ {| name := u "Work"; lat := WORK_LATITUDE c; lon := WORK_LONGITUDE c |};
    {| name := u "Home"; lat := HOME_LATITUDE c; lon := HOME_LONGITUDE c |} ].

(** ** Dates and times *)

(** The fields of a [datetime]; the time zone is kept apart. *)
Record datetime : Type := {
  year : Z;
  month : Z;
  day : Z;
  hour : Z;
  minute : Z;
  second : Z;
  microsecond : Z
}.

Definition MAXYEAR : Z := 9999.

Definition is_leap (y : Z) : bool :=
  (y mod 4 =? 0) && (negb (y mod 100 =? 0) || (y mod 400 =? 0)).

Definition days_in_month (y m : Z) : Z :=
  match m with
  | 1 | 3 | 5 | 7 | 8 | 10 | 12 => 31
  | 4 | 6 | 9 | 11 => 30
  | 2 => if is_leap y then 29 else 28
  | _ => 0
  end.

Definition valid_datetime (d : datetime) : bool :=
  (1 <=? year d) && (year d <=? MAXYEAR)
  && (1 <=? month d) && (month d <=? 12)
  && (1 <=? day d) && (day d <=? days_in_month (year d) (month d))
  && (0 <=? hour d) && (hour d <? 24)
  && (0 <=? minute d) && (minute d <? 60)
  && (0 <=? second d) && (second d <? 60)
  && (0 <=? microsecond d) && (microsecond d <? 1000000).

(** Days before January 1st of year [y], and before the first of month [m]:
    the proleptic Gregorian ordinal of [date.toordinal]. *)
Definition days_before_year (y : Z) : Z :=
  let p := y - 1 in p * 365 + p / 4 - p / 100 + p / 400.

Definition days_before_month (y m : Z) : Z :=
  match m with
  | 1 => 0 | 2 => 31 | 3 => 59 | 4 => 90 | 5 => 120 | 6 => 151 | 7 => 181
  | 8 => 212 | 9 => 243 | 10 => 273 | 11 => 304 | 12 => 334
  | _ => 0
  end + (if (2 <? m) && is_leap y then 1 else 0).

Definition toordinal (d : datetime) : Z :=
  days_before_year (year d) + days_before_month (year d) (month d) + day d.

(** Microseconds since the start of day 0 of the calendar, in the zone the
    fields are read in.  The difference of two of them is the [timedelta] of
    a datetime subtraction. *)
Definition to_microseconds (d : datetime) : Z :=
  (((toordinal d * 24 + hour d) * 60 + minute d) * 60 + second d) * 1000000
  + microsecond d.

(** Comparison of two datetimes of one zone: by fields, most significant
    first. *)
Fixpoint lex_compare (a b : list Z) : comparison :=
  match a, b with
  | [], [] => Eq
  | [], _ :: _ => Lt
  | _ :: _, [] => Gt
  | x :: a', y :: b' =>
      match x ?= y with
      | Eq => lex_compare a' b'
      | c => c
      end
  end.

Definition fields (d : datetime) : list Z :=
  [year d; month d; day d; hour d; minute d; second d; microsecond d].

Definition dt_lt (a b : datetime) : bool :=
  match lex_compare (fields a) (fields b) with Lt => true | _ => false end.

Definition dt_ge (a b : datetime) : bool := negb (dt_lt a b).

(** [d + timedelta(days=1)]: the same time on the next calendar day;
    [OverflowError] past the last day of [MAXYEAR]. *)
Definition plus_one_day (d : datetime) : result datetime :=
  let with_date y m dd :=
    {| year := y; month := m; day := dd; hour := hour d; minute := minute d;
       second := second d; microsecond := microsecond d |} in
  if (year d =? MAXYEAR) && (month d =? 12) && (day d =? 31)
  then Raise OverflowError
  else if day d <? days_in_month (year d) (month d)
  then OK (with_date (year d) (month d) (day d + 1))
  else if month d <? 12
  then OK (with_date (year d) (month d + 1) 1)
  else OK (with_date (year d + 1) 1 1).

Definition pad (width : nat) (z : Z) : pystr :=
  let s := str_of_int z in
  repeat 48%N (width - List.length s) ++ s.

(** [d.strftime("%Y-%m-%d")] (years below 1000 are padded to four digits). *)
Definition strftime_Ymd (d : datetime) : pystr :=
  pad 4 (year d) ++ u "-" ++ pad 2 (month d) ++ u "-" ++ pad 2 (day d).

(** Asia/Manila is at UTC+08:00 (no daylight saving since 1990). *)
Definition PH_TZ_utcoffset : Z := 8 * 3600 * 1000000.

(** ** The environment of one daily cycle *)

(** What the outside world answers during one iteration of the loop of
    [main], in the order the program asks. *)
Record cycle : Type := {
  clock_main_ph : datetime;       (* datetime.now(PH_TZ) in main *)
  clock_main_utc : datetime;      (* datetime.now(pytz.utc) in main *)
  clock_msg_now : datetime;       (* first datetime.now(PH_TZ) of build_message *)
  clock_msg_today : datetime;     (* second datetime.now(PH_TZ) of build_message *)
  fetch_weather : pyfloat -> pyfloat -> result json;
                                  (* requests.get(url) and r.json() *)
  send_message : option pystr -> pystr -> result unit
                                  (* bot.send_message(chat_id, text) *)
}.

(** The C library's rendering of ["%A, %B %#d, %Y"]; the [#] flag is not
    portable, so the text is left to the platform. *)
Record platform : Type := {
  strftime_date_line : datetime -> pystr
}.

(** ** [build_message] *)

(** The three lists the hourly loop fills for one location. *)
Record filtered : Type := {
  filtered_times : list pystr;
  filtered_temps : list json;
  filtered_rains : list json
}.

Definition no_entries : filtered :=
  {| filtered_times := []; filtered_temps := []; filtered_rains := [] |}.

(** An element of [location_data]. *)
Record loc_data : Type := {
  ld_name : pystr;
  ld_times : list pystr;
  ld_temps : list json;
  ld_rains : list json
}.

(** The body of [for i in range(len(times))]; the state is the three lists
    and [will_rain]. *)
Definition hourly_body (today_str : pystr) (times temps rains : json)
    (s : filtered * bool) (i : nat) : result (filtered * bool) :=
  let '(f, will_rain) := s in
  ti <- py_getitem times i ;;
  match ti with
  | JStr t =>
      if startswith t today_str then
        hr <- py_int (slice 11 13 t) ;;
        if (8 <=? hr) && (hr <=? 20) then
          nt <- py_len temps ;;
          temp <- (if (i <? nt)%nat then py_getitem temps i else OK JNull) ;;
          nr <- py_len rains ;;
          rain <- (if (i <? nr)%nat then py_getitem rains i else OK JNull) ;;
          r <- py_getitem rains i ;;
          wet <- py_ge_30 r ;;
          OK ({| filtered_times := filtered_times f ++ [t];
                 filtered_temps := filtered_temps f ++ [temp];
                 filtered_rains := filtered_rains f ++ [rain] |},
              if wet then true else will_rain)
        else OK s
      else OK s
  | _ => Raise AttributeError
  end.

(** The body of [for loc in LOCATIONS]; the state is [location_data] and
    [will_rain]. *)
Definition collect_body (today_str : pystr)
    (fetch : pyfloat -> pyfloat -> result json)
    (s : list loc_data * bool) (loc : location) : result (list loc_data * bool) :=
  let '(location_data, will_rain) := s in
  data <- fetch (lat loc) (lon loc) ;;
  hourly <- dict_get data (u "hourly") (JDict []) ;;
  times <- dict_get hourly (u "time") (JList []) ;;
  temps <- dict_get hourly (u "temperature_2m") (JList []) ;;
  rains <- dict_get hourly (u "precipitation_probability") (JList []) ;;
  n <- py_len times ;;
  '(f, will_rain') <-
    for_each (hourly_body today_str times temps rains) (seq 0 n)
             (no_entries, will_rain) ;;
  OK (location_data ++
        [ {| ld_name := name loc; ld_times := filtered_times f;
             ld_temps := filtered_temps f; ld_rains := filtered_rains f |} ],
      will_rain').

Definition list_item {A : Type} (l : list A) (i : nat) : result A :=
  match nth_error l i with
  | Some x => OK x
  | None => Raise IndexError
  end.

(** [round(v) if v is not None else "N/A"], then formatted. *)
Definition render_value (v : json) : result pystr :=
  match v with
  | JNull => OK (u "N/A")
  | _ => z <- py_round v ;; OK (str_of_int z)
  end.

(** The body of [for i in range(len(loc["times"]))]; the state is [msg]. *)
Definition line_body (loc : loc_data) (msg : pystr) (i : nat) : result pystr :=
  t <- list_item (ld_times loc) i ;;
  let time_str := slice 11 16 t in
  tv <- list_item (ld_temps loc) i ;;
  temp <- render_value tv ;;
  rv <- list_item (ld_rains loc) i ;;
  rain <- render_value rv ;;
  OK (msg ++ time_str ++ u " - " ++ temp ++ DEGREE ++ u "C, " ++ rain
          ++ u "%" ++ NL).

(** The body of [for loc in location_data]; the state is [msg]. *)
Definition block_body (msg : pystr) (loc : loc_data) : result pystr :=
  msg' <- for_each (line_body loc) (seq 0 (List.length (ld_times loc)))
                   (msg ++ ld_name loc ++ u ":" ++ NL) ;;
  OK (msg' ++ NL).

Definition weather_emoji (will_rain : bool) : pystr :=
  if will_rain then RAIN_EMOJI else SUN_EMOJI.

(** [build_message] for a given value of the global [LOCATIONS]. *)
Definition build_message_at (locations : list location) (p : platform)
    (e : cycle) : result pystr :=
  let now := strftime_date_line p (clock_msg_now e) in
  let today_str := strftime_Ymd (clock_msg_today e) in
  '(location_data, will_rain) <-
    for_each (collect_body today_str (fetch_weather e)) locations ([], false) ;;
  let msg := now ++ u " " ++ weather_emoji will_rain ++ NL ++ NL in
  for_each block_body location_data msg.

Definition build_message (c : config) (p : platform) (e : cycle)
  : result pystr :=
  build_message_at (LOCATIONS c) p e.

(** ** [main] *)

Inductive log_line : Type :=
| LogCurrent (now_ph : datetime)                 (* "Current PH time: ..." *)
| LogSchedule (target_ph : datetime) (delay : Z) (* "Scheduling next message at: ..." *)
| LogSent                                        (* "Message sent!" *)
| LogFailed (e : exn)                            (* "Failed to send message: ..." *)
| LogStopped.                                    (* "Stopped by user (KeyboardInterrupt)" *)

(** What the program does to the outside world; sleeps are in
    microseconds. *)
Inductive event : Type :=
| Print (l : log_line)
| Sleep (duration : Z)
| Send (chat_id : option pystr) (text : pystr).

(** A computation that leaves a trace and returns or raises. *)
Definition M (A : Type) : Type := list event * result A.

Definition mret {A : Type} (a : A) : M A := ([], OK a).

Definition mbind {A B : Type} (m : M A) (f : A -> M B) : M B :=
  match m with
  | (t, OK a) => let '(t', r) := f a in (t ++ t', r)
  | (t, Raise e) => (t, Raise e)
  end.

Definition emit (ev : event) : M unit := ([ev], OK tt).
Definition lift {A : Type} (r : result A) : M A := ([], r).

(** [try: body  except Exception as e: handler e] *)
Definition try_except_Exception (body : M unit) (handler : exn -> M unit)
  : M unit :=
  match body with
  | (t, OK a) => (t, OK a)
  | (t, Raise e) =>
      if is_Exception e then let '(t', r) := handler e in (t ++ t', r)
      else (t, Raise e)
  end.

Declare Scope M_scope.
Delimit Scope M_scope with M.
Notation "x <- m ;; k" := (mbind m (fun x => k))
  (at level 61, m at next level, right associativity) : M_scope.
Notation "m ;;; k" := (mbind m (fun _ => k))
  (at level 61, right associativity) : M_scope.

(** Today's 06:00 in Manila, from the fields of the current Manila time;
    [PH_TZ.localize] does not raise (it is called without [is_dst=None]). *)
Definition target_today (now_ph : datetime) : datetime :=
  {| year := year now_ph; month := month now_ph; day := day now_ph;
     hour := 6; minute := 0; second := 0; microsecond := 0 |}.

(** The target of the scheduler: lines 93 to 102 of [main]. *)
Definition next_target (now_ph : datetime) : result datetime :=
  let target_ph := target_today now_ph in
  if dt_ge now_ph target_ph then plus_one_day target_ph else OK target_ph.

(** [(target_utc - now_utc)] in microseconds. *)
Definition delay_of (target_ph now_utc : datetime) : Z :=
  (to_microseconds target_ph - PH_TZ_utcoffset) - to_microseconds now_utc.

Definition RETRY_PAUSE : Z := 10 * 1000000.

(** One iteration of [while True]. *)
Definition main_iteration (c : config) (p : platform) (e : cycle) : M unit :=
  (let now_ph := clock_main_ph e in
   target_ph <- lift (next_target now_ph) ;;
   let delay := delay_of target_ph (clock_main_utc e) in
   emit (Print (LogCurrent now_ph)) ;;;
   emit (Print (LogSchedule target_ph delay)) ;;;
   (if 0 <? delay then emit (Sleep delay) else mret tt) ;;;
   message <- lift (build_message c p e) ;;
   try_except_Exception
     (emit (Send (CHAT_ID c) message) ;;;
      lift (send_message e (CHAT_ID c) message) ;;;
      emit (Print LogSent))
     (fun err =>
        emit (Print (LogFailed err)) ;;;
        emit (Sleep RETRY_PAUSE)))%M.

(** How a run of [main] over finitely many cycles stands at its end. *)
Inductive status : Type :=
| Running               (* the loop is at the top of a further iteration *)
| Returned              (* KeyboardInterrupt was caught: main returned *)
| Crashed (e : exn).    (* the exception left main *)

(** [main] over the cycles the environment provides. *)
Fixpoint main (c : config) (p : platform) (cycles : list cycle)
  : list event * status :=
  match cycles with
  | [] => ([], Running)
  | e :: rest =>
      match main_iteration c p e with
      | (t, OK _) => let '(t', s) := main c p rest in (t ++ t', s)
      | (t, Raise KeyboardInterrupt) => (t ++ [Print LogStopped], Returned)
      | (t, Raise err) => (t, Crashed err)
      end
  end.

(** * Specification-side definitions

    What the specification says about the message, written as plain
    functions of the decoded forecasts; the theorems below compare them
    with the loops of [build_message]. *)

(** The arrays of one location's response (lines 40 to 46). *)
Record forecast : Type := {
  fc_name : pystr;
  fc_times : json;
  fc_temps : json;
  fc_rains : json
}.

Definition forecast_of (fetch : pyfloat -> pyfloat -> result json)
    (loc : location) : result forecast :=
  data <- fetch (lat loc) (lon loc) ;;
  hourly <- dict_get data (u "hourly") (JDict []) ;;
  times <- dict_get hourly (u "time") (JList []) ;;
  temps <- dict_get hourly (u "temperature_2m") (JList []) ;;
  rains <- dict_get hourly (u "precipitation_probability") (JList []) ;;
  OK {| fc_name := name loc; fc_times := times; fc_temps := temps;
        fc_rains := rains |}.

(** A timestamp is in the window when its date is today's and its hour is
    in [8,20]. *)
Definition in_window (today_str t : pystr) : bool :=
  startswith t today_str &&
  match py_int (slice 11 13 t) with
  | OK h => (8 <=? h) && (h <=? 20)
  | Raise _ => false
  end.

Definition entry_count (times : json) : nat :=
  match py_len times with OK n => n | Raise _ => 0%nat end.

Definition time_at (times : json) (i : nat) : pystr :=
  match py_getitem times i with OK (JStr t) => t | _ => [] end.

Definition entry_retained (today_str : pystr) (times : json) (i : nat) : bool :=
  match py_getitem times i with
  | OK (JStr t) => in_window today_str t
  | _ => false
  end.

(** The retained hours of a time array, as indices in increasing order. *)
Definition retained (today_str : pystr) (times : json) : list nat :=
  filter (entry_retained today_str times) (seq 0 (entry_count times)).

(** The value at index [i] of a parallel array, [JNull] (Python's [None])
    when the array is too short. *)
Definition value_at (values : json) (i : nat) : json :=
  match py_len values with
  | OK n =>
      if (i <? n)%nat
      then match py_getitem values i with OK v => v | Raise _ => JNull end
      else JNull
  | Raise _ => JNull
  end.

Definition shown (v : json) : pystr :=
  match render_value v with OK s => s | Raise _ => [] end.

Definition spec_line (fc : forecast) (i : nat) : pystr :=
  slice 11 16 (time_at (fc_times fc) i) ++ u " - "
  ++ shown (value_at (fc_temps fc) i) ++ DEGREE ++ u "C, "
  ++ shown (value_at (fc_rains fc) i) ++ u "%" ++ NL.

Definition spec_lines (today_str : pystr) (fc : forecast) : list pystr :=
  map (spec_line fc) (retained today_str (fc_times fc)).

Definition spec_block (today_str : pystr) (fc : forecast) : pystr :=
  fc_name fc ++ u ":" ++ NL ++ List.concat (spec_lines today_str fc) ++ NL.

(** A rain probability of at least 30. *)
Definition at_least_30 (v : json) : Prop :=
  match v with
  | JInt z => 30 <= z
  | JFloat (Finite q) => (30 # 1 <= q)%Q
  | JFloat PosInf => True
  | _ => False
  end.

Definition wet_at (rains : json) (i : nat) : bool :=
  match py_getitem rains i with
  | OK r => match py_ge_30 r with OK b => b | Raise _ => false end
  | Raise _ => false
  end.

Definition rainy (today_str : pystr) (fc : forecast) : bool :=
  existsb (wet_at (fc_rains fc)) (retained today_str (fc_times fc)).

(** The three lists after entry [i] has been appended. *)
Definition push (times temps rains : json) (f : filtered) (i : nat) : filtered :=
  {| filtered_times := filtered_times f ++ [time_at times i];
     filtered_temps := filtered_temps f ++ [value_at temps i];
     filtered_rains := filtered_rains f ++ [value_at rains i] |}.

(** What the hourly loop leaves in [location_data] for a forecast. *)
Definition data_of (today_str : pystr) (fc : forecast) : loc_data :=
  let idx := retained today_str (fc_times fc) in
  {| ld_name := fc_name fc;
     ld_times := map (time_at (fc_times fc)) idx;
     ld_temps := map (value_at (fc_temps fc)) idx;
     ld_rains := map (value_at (fc_rains fc)) idx |}.

(** A response without hourly data: no ["hourly"] object, an ["hourly"]
    object without a ["time"] array, or an empty ["time"] array. *)
Definition no_hourly_data (data : json) : Prop :=
  exists entries,
    data = JDict entries /\
    match assoc (u "hourly") entries with
    | None => True
    | Some (JDict h) =>
        match assoc (u "time") h with
        | None => True
        | Some (JList []) => True
        | Some _ => False
        end
    | Some _ => False
    end.

(** The forecasts of a list of locations, in order. *)
Definition forecasts (fetch : pyfloat -> pyfloat -> result json)
    (locs : list location) (fcs : list forecast) : Prop :=
  Forall2 (fun loc fc => forecast_of fetch loc = OK fc) locs fcs.

(** The outcome [r] of a loop run from the neutral state, replayed from the
    state [s]. *)
Definition framed {S : Type} (op : S -> S -> S) (r : result S) (s : S)
  : result S :=
  match r with
  | OK d => OK (op s d)
  | Raise e => Raise e
  end.

(** The date line, the emoji and the blank line that open the message. *)
Definition header (p : platform) (e : cycle) (will_rain : bool) : pystr :=
  strftime_date_line p (clock_msg_now e) ++ u " " ++ weather_emoji will_rain
  ++ NL ++ NL.

Definition today_of (e : cycle) : pystr := strftime_Ymd (clock_msg_today e).

(** Entry [i] of a time array is a retained hour: its date is today's and
    its hour is in [8,20]. *)
Definition retained_hour (today_str : pystr) (times : json) (i : nat) : Prop :=
  exists t h,
    py_getitem times i = OK (JStr t) /\
    startswith t today_str = true /\
    py_int (slice 11 13 t) = OK h /\
    8 <= h <= 20.

(** Some retained hour of some location has a rain probability of at least
    30. *)
Definition rain_expected (locations : list location) (e : cycle) : Prop :=
  exists loc fc i r,
    In loc locations /\
    forecast_of (fetch_weather e) loc = OK fc /\
    retained_hour (today_of e) (fc_times fc) i /\
    py_getitem (fc_rains fc) i = OK r /\
    at_least_30 r.

(** The hour of a timestamp is outside [8,20]. *)
Definition hour_outside (t : pystr) : Prop :=
  exists h, py_int (slice 11 13 t) = OK h /\ (h < 8 \/ 20 < h).

(** The two configured locations. *)
Definition work_of (c : config) : location :=
  {| name := u "Work"; lat := WORK_LATITUDE c; lon := WORK_LONGITUDE c |}.

Definition home_of (c : config) : location :=
  {| name := u "Home"; lat := HOME_LATITUDE c; lon := HOME_LONGITUDE c |}.

(** Indices in strictly increasing order. *)
Definition increasing (idx : list nat) : Prop := StronglySorted lt idx.

(** A JSON number and the rational it denotes. *)
Inductive number : json -> Q -> Prop :=
| number_int z : number (JInt z) (inject_Z z)
| number_float q : number (JFloat (Finite q)) q.

(** [z] is an integer nearest to [q], the even one when there are two. *)
Definition nearest_even (q : Q) (z : Z) : Prop :=
  (Qabs (q - inject_Z z) <= 1 # 2)%Q /\
  ((Qabs (q - inject_Z z) == 1 # 2)%Q -> Z.even z = true).

(** The element of [location_data] of a location without retained hours. *)
Definition empty_data (place : pystr) : loc_data :=
  {| ld_name := place; ld_times := []; ld_temps := []; ld_rains := [] |}.

(** The block of a location without data lines. *)
Definition empty_block (place : pystr) : pystr := place ++ u ":" ++ NL ++ NL.

(** The clock reads the last day the calendar can represent. *)
Definition last_day (d : datetime) : Prop :=
  year d = MAXYEAR /\ month d = 12 /\ day d = 31.

(** [target] is a valid datetime at 06:00:00 sharp. *)
Definition at_six (target : datetime) : Prop :=
  valid_datetime target = true /\
  hour target = 6 /\ minute target = 0 /\ second target = 0 /\
  microsecond target = 0.

(** What the specification asks of the target computed from [now_ph]: it is
    at 06:00 in Manila and strictly later than [now_ph], both in Python's
    comparison and in elapsed time; it is today's 06:00 before that time and
    the next day's otherwise. *)
Definition good_target (now_ph target : datetime) : Prop :=
  at_six target /\
  dt_lt now_ph target = true /\
  to_microseconds now_ph < to_microseconds target /\
  (hour now_ph < 6 -> toordinal target = toordinal now_ph) /\
  (6 <= hour now_ph -> toordinal target = toordinal now_ph + 1).

(** What an iteration prints and sleeps before it builds the message. *)
Definition iteration_prefix (e : cycle) (target_ph : datetime) : list event :=
  let delay := delay_of target_ph (clock_main_utc e) in
  [ Print (LogCurrent (clock_main_ph e)); Print (LogSchedule target_ph delay) ]
  ++ (if 0 <? delay then [Sleep delay] else []).

(** What follows the date line in the message of the specification's
    example. *)
Definition body_0900 : pystr :=
  u " " ++ SUN_EMOJI ++ NL ++ NL
  ++ u "Home:" ++ NL
  ++ u "09:00 - 25" ++ DEGREE ++ u "C, 10%" ++ NL
  ++ NL.

(** The iteration of the cycle [e] ends normally and [main] goes on with
    the cycles that follow: what "skip this cycle, try again next scheduled
    time" asks. *)
Definition cycle_skipped (c : config) (p : platform) (e : cycle)
    (rest : list cycle) : Prop :=
  exists t,
    main_iteration c p e = (t, OK tt) /\
    main c p (e :: rest) = (t ++ fst (main c p rest), snd (main c p rest)).

(** * Sample inputs

    Concrete configurations, platforms and cycles, for the instances of the
    theorems below. *)

Definition DAY_NAMES : list pystr :=
  [u "Monday"; u "Tuesday"; u "Wednesday"; u "Thursday"; u "Friday";
   u "Saturday"; u "Sunday"].

Definition MONTH_NAMES : list pystr :=
  [u "January"; u "February"; u "March"; u "April"; u "May"; u "June";
   u "July"; u "August"; u "September"; u "October"; u "November";
   u "December"].

(** ["%A, %B %#d, %Y"] in the C locale where [%#d] drops the leading zero
    (the Windows C runtime). *)
Definition windows_c_locale : platform :=
  {| strftime_date_line := fun d =>
       nth (Z.to_nat ((toordinal d + 6) mod 7)) DAY_NAMES []
       ++ u ", " ++ nth (Z.to_nat (month d - 1)) MONTH_NAMES []
       ++ u " " ++ str_of_int (day d) ++ u ", " ++ str_of_int (year d) |}.

Definition sample_config : config :=
  {| CHAT_ID := Some (u "123456789");
     WORK_LATITUDE := Finite (1455 # 100);
     WORK_LONGITUDE := Finite (12102 # 100);
     HOME_LATITUDE := Finite (1468 # 100);
     HOME_LONGITUDE := Finite (12104 # 100) |}.

Definition at_time (y m d h mi s us : Z) : datetime :=
  {| year := y; month := m; day := d; hour := h; minute := mi; second := s;
     microsecond := us |}.

(** A response with the three hourly arrays. *)
Definition hourly_response (times temps rains : list json) : json :=
  JDict [ (u "hourly",
           JDict [ (u "time", JList times);
                   (u "temperature_2m", JList temps);
                   (u "precipitation_probability", JList rains) ]) ].

(** A cycle of the morning of 2024-01-01: the loop wakes the evening
    before and the message is built just after 06:00. *)
Definition cycle_20240101 (fetch : pyfloat -> pyfloat -> result json)
    (send : option pystr -> pystr -> result unit) : cycle :=
  {| clock_main_ph := at_time 2023 12 31 21 30 0 0;
     clock_main_utc := at_time 2023 12 31 13 30 0 120;
     clock_msg_now := at_time 2024 1 1 6 0 0 2500;
     clock_msg_today := at_time 2024 1 1 6 0 0 2600;
     fetch_weather := fetch;
     send_message := send |}.

(** The cycle after a failed delivery on 2024-01-01: the loop is back at
    its top ten seconds after 06:00. *)
Definition cycle_20240102 (fetch : pyfloat -> pyfloat -> result json)
    (send : option pystr -> pystr -> result unit) : cycle :=
  {| clock_main_ph := at_time 2024 1 1 6 0 11 0;
     clock_main_utc := at_time 2023 12 31 22 0 11 90;
     clock_msg_now := at_time 2024 1 2 6 0 0 1800;
     clock_msg_today := at_time 2024 1 2 6 0 0 1900;
     fetch_weather := fetch;
     send_message := send |}.

Definition home_location : location :=
  {| name := u "Home"; lat := HOME_LATITUDE sample_config;
     lon := HOME_LONGITUDE sample_config |}.

Definition always (data : json) : pyfloat -> pyfloat -> result json :=
  fun _ _ => OK data.

Definition delivered : option pystr -> pystr -> result unit :=
  fun _ _ => OK tt.

Definition undelivered : option pystr -> pystr -> result unit :=
  fun _ _ => Raise TelegramError.

Definition offline : pyfloat -> pyfloat -> result json :=
  fun _ _ => Raise RequestException.

(** The response of the specification's example. *)
Definition response_0900 : json :=
  hourly_response [JStr (u "2024-01-01T09:00")] [JInt 25] [JInt 10].

(** A day with a wet morning: one entry before the window, two in it, one
    after it and one of the next day; the second temperature is missing. *)
Definition response_wet : json :=
  hourly_response
    [ JStr (u "2024-01-01T07:00"); JStr (u "2024-01-01T08:00");
      JStr (u "2024-01-01T20:00"); JStr (u "2024-01-01T21:00");
      JStr (u "2024-01-02T09:00") ]
    [ JFloat (Finite (244 # 10)); JFloat (Finite (256 # 10)); JNull;
      JInt 23; JInt 22 ]
    [ JInt 90; JInt 40; JInt 5; JInt 95; JInt 99 ].

Definition forecast_wet (place : pystr) : forecast :=
  {| fc_name := place;
     fc_times := JList [ JStr (u "2024-01-01T07:00"); JStr (u "2024-01-01T08:00");
                         JStr (u "2024-01-01T20:00"); JStr (u "2024-01-01T21:00");
                         JStr (u "2024-01-02T09:00") ];
     fc_temps := JList [ JFloat (Finite (244 # 10)); JFloat (Finite (256 # 10));
                         JNull; JInt 23; JInt 22 ];
     fc_rains := JList [ JInt 90; JInt 40; JInt 5; JInt 95; JInt 99 ] |}.

Definition message_wet : pystr :=
  u "Monday, January 1, 2024 " ++ RAIN_EMOJI ++ NL ++ NL
  ++ u "Work:" ++ NL
  ++ u "08:00 - 26" ++ DEGREE ++ u "C, 40%" ++ NL
  ++ u "20:00 - N/A" ++ DEGREE ++ u "C, 5%" ++ NL
  ++ NL
  ++ u "Home:" ++ NL
  ++ u "08:00 - 26" ++ DEGREE ++ u "C, 40%" ++ NL
  ++ u "20:00 - N/A" ++ DEGREE ++ u "C, 5%" ++ NL
  ++ NL.


(** The message of the specification's example. *)
Definition message_0900 : pystr :=
  u "Monday, January 1, 2024 " ++ SUN_EMOJI ++ NL ++ NL
  ++ u "Home:" ++ NL
  ++ u "09:00 - 25" ++ DEGREE ++ u "C, 10%" ++ NL
  ++ NL.

Definition message_0900_both : pystr :=
  u "Monday, January 1, 2024 " ++ SUN_EMOJI ++ NL ++ NL
  ++ u "Work:" ++ NL
  ++ u "09:00 - 25" ++ DEGREE ++ u "C, 10%" ++ NL
  ++ NL
  ++ u "Home:" ++ NL
  ++ u "09:00 - 25" ++ DEGREE ++ u "C, 10%" ++ NL
  ++ NL.

(** The example's response with the rain probability null, with the rain
    array empty, and with the temperature null. *)
Definition response_null_rain : json :=
  hourly_response [JStr (u "2024-01-01T09:00")] [JInt 25] [JNull].

Definition response_short_rain : json :=
  hourly_response [JStr (u "2024-01-01T09:00")] [JInt 25] [].

Definition response_null_temp : json :=
  hourly_response [JStr (u "2024-01-01T09:00")] [JNull] [JInt 10].

Definition response_short_temp : json :=
  hourly_response [JStr (u "2024-01-01T09:00")] [] [JInt 10].

Definition message_no_temp : pystr :=
  u "Monday, January 1, 2024 " ++ SUN_EMOJI ++ NL ++ NL
  ++ u "Home:" ++ NL
  ++ u "09:00 - N/A" ++ DEGREE ++ u "C, 10%" ++ NL
  ++ NL.

(** A network that knows the forecast of Work only: the response for Home
    is an empty object. *)
Definition fetch_work_only : pyfloat -> pyfloat -> result json :=
  fun la _ =>
    match la with
    | Finite q => if Qeq_bool q (1468 # 100) then OK (JDict []) else OK response_wet
    | _ => OK response_wet
    end.

Definition message_work_only : pystr :=
  u "Monday, January 1, 2024 " ++ RAIN_EMOJI ++ NL ++ NL
  ++ u "Work:" ++ NL
  ++ u "08:00 - 26" ++ DEGREE ++ u "C, 40%" ++ NL
  ++ u "20:00 - N/A" ++ DEGREE ++ u "C, 5%" ++ NL
  ++ NL
  ++ u "Home:" ++ NL
  ++ NL.

(** The cycles of the instances: the morning of 2024-01-01 with the
    example's response, with Home silent, with the chat endpoint failing and
    with the network down, and the cycle that follows. *)
Definition cycle_on (response : json) : cycle :=
  cycle_20240101 (always response) delivered.

Definition cycle_0900 : cycle := cycle_on response_0900.

Definition cycle_wet : cycle := cycle_on response_wet.

Definition cycle_work_only : cycle := cycle_20240101 fetch_work_only delivered.

Definition cycle_undelivered : cycle :=
  cycle_20240101 (always response_0900) undelivered.

Definition cycle_offline : cycle := cycle_20240101 offline delivered.

Definition cycle_after : cycle :=
  cycle_20240102 (always response_0900) delivered.

Definition evening_before : datetime := at_time 2023 12 31 21 30 0 0.

Definition six_20240101 : datetime := at_time 2024 1 1 6 0 0 0.

(** * Further definitions

    Vocabulary of the properties of the scheduler and of [build_message]
    that complete the claims. *)

(** One day, in microseconds. *)
Definition DAY : Z := 24 * 3600 * 1000000.

(** A sleep lasts. *)
Definition positive_sleep (ev : event) : Prop :=
  match ev with
  | Sleep d => 0 < d
  | _ => True
  end.

Definition is_send (ev : event) : bool :=
  match ev with
  | Send _ _ => true
  | _ => false
  end.

Definition count_sends (t : list event) : nat :=
  List.length (filter is_send t).

(** A cycle in which the target is computed, the message is built and the
    delivery succeeds. *)
Definition good_cycle (c : config) (p : platform) (e : cycle) : Prop :=
  exists target_ph msg,
    next_target (clock_main_ph e) = OK target_ph /\
    build_message c p e = OK msg /\
    send_message e (CHAT_ID c) msg = OK tt.

(** The delivery is interrupted from the keyboard. *)
Definition interrupted : option pystr -> pystr -> result unit :=
  fun _ _ => Raise KeyboardInterrupt.

Definition cycle_interrupted : cycle :=
  cycle_20240101 (always response_0900) interrupted.

Definition six_20240102 : datetime := at_time 2024 1 2 6 0 0 0.

(** The message of 2024-01-02 when the forecast only has hours of the day
    before. *)
Definition message_quiet : pystr :=
  u "Tuesday, January 2, 2024 " ++ SUN_EMOJI ++ NL ++ NL
  ++ u "Work:" ++ NL ++ NL
  ++ u "Home:" ++ NL ++ NL.

(** A JSON number with a finite value. *)
Definition finite_number (v : json) : Prop := exists q, number v q.

(** A time entry is a string and, when it is of today, the two characters
    of its hour are read by [int]. *)
Definition time_ok (today_str : pystr) (v : json) : Prop :=
  exists t,
    v = JStr t /\
    (startswith t today_str = true -> exists h, py_int (slice 11 13 t) = OK h).

(** A forecast as the weather service sends it: three arrays, every time a
    timestamp, every temperature a number or null, every rain probability a
    number, and a rain probability for every time. *)
Definition well_formed (today_str : pystr) (fc : forecast) : Prop :=
  exists ts ps rs,
    fc_times fc = JList ts /\ fc_temps fc = JList ps /\ fc_rains fc = JList rs /\
    Forall (time_ok today_str) ts /\
    Forall (fun v => v = JNull \/ finite_number v) ps /\
    Forall finite_number rs /\
    (List.length ts <= List.length rs)%nat.

(** A time entry that is not retained: a string of another date, or of an
    hour outside [8,20]. *)
Definition outside (today_str : pystr) (v : json) : Prop :=
  exists t, v = JStr t /\ (startswith t today_str = false \/ hour_outside t).

(** A forecast without a retained hour. *)
Definition quiet (today_str : pystr) (fc : forecast) : Prop :=
  exists ts, fc_times fc = JList ts /\ Forall (outside today_str) ts.

(** The three lists of an element of [location_data] are parallel. *)
Definition same_lengths (d : loc_data) : Prop :=
  List.length (ld_times d) = List.length (ld_temps d) /\
  List.length (ld_times d) = List.length (ld_rains d).

(** What [round] raises. *)
Definition rounding_error (x : exn) : Prop :=
  x = TypeError \/ x = OverflowError \/ x = ValueError.

(** A JSON value without a length: null, a boolean or a number. *)
Definition scalar (v : json) : bool :=
  match v with
  | JNull | JBool _ | JInt _ | JFloat _ => true
  | JStr _ | JList _ | JDict _ => false
  end.

Definition is_dict (v : json) : bool :=
  match v with
  | JDict _ => true
  | _ => false
  end.

(** A platform whose date line is empty. *)
Definition blank_platform : platform :=
  {| strftime_date_line := fun _ => [] |}.

(** A response whose ["hourly"] is null, and one whose ["time"] is null. *)
Definition response_null_hourly : json := JDict [ (u "hourly", JNull) ].

Definition response_null_time : json :=
  JDict [ (u "hourly", JDict [ (u "time", JNull) ]) ].

(** The morning of 2024-01-01 read on another platform, a minute later. *)
Definition blank_cycle_0900 : cycle :=
  {| clock_main_ph := at_time 2023 12 31 21 30 0 0;
     clock_main_utc := at_time 2023 12 31 13 30 0 120;
     clock_msg_now := at_time 2024 1 1 6 1 0 0;
     clock_msg_today := at_time 2024 1 1 6 1 0 10;
     fetch_weather := always response_0900;
     send_message := delivered |}.

(** A response of 2024-01-02 without a retained hour: an entry of the day
    before, one before 08:00 and one after 20:00; the temperatures are null
    and the rain probabilities are absent. *)
Definition stale_times : list json :=
  [ JStr (u "2024-01-01T09:00"); JStr (u "2024-01-02T07:00");
    JStr (u "2024-01-02T21:00") ].

Definition response_stale : json :=
  JDict [ (u "hourly",
           JDict [ (u "time", JList stale_times);
                   (u "temperature_2m", JNull) ]) ].

Definition forecast_stale (place : pystr) : forecast :=
  {| fc_name := place; fc_times := JList stale_times; fc_temps := JNull;
     fc_rains := JList [] |}.

Definition cycle_stale : cycle :=
  cycle_20240102 (always response_stale) delivered.

(** A response whose temperature is a text, and what the loop over the
    hours collects from it for Home. *)
Definition response_hot : json :=
  hourly_response [JStr (u "2024-01-01T09:00")] [JStr (u "hot")] [JInt 10].

Definition collected_hot : list loc_data :=
  [ {| ld_name := u "Home"; ld_times := [u "2024-01-01T09:00"];
       ld_temps := [JStr (u "hot")]; ld_rains := [JInt 10] |} ].

(** A timestamp of today whose hour is written with the separator U+001C
    before the digit: [int] does not read it. *)
Definition response_separator : json :=
  hourly_response
    [ JStr (u "2024-01-01T" ++ [28%N] ++ u "9:00") ] [JInt 25] [JInt 10].
(** * The model against Python, on values *)

Example int_of_hour : py_int (u "09") = OK 9.
Proof. reflexivity. Qed.

Example int_of_spaced : py_int (u " 9") = OK 9.
Proof. reflexivity. Qed.

Example int_of_letters : py_int (u "T0") = Raise ValueError.
Proof. reflexivity. Qed.

Example int_of_separator :
  map (fun c => py_int [c; 57%N]) [28; 29; 30; 31; 127]%N
  = [Raise ValueError; Raise ValueError; Raise ValueError; Raise ValueError;
     Raise ValueError].
Proof. reflexivity. Qed.

Example int_of_white_space :
  map (fun c => py_int [c; 57%N]) [9; 10; 11; 12; 13; 32; 133; 160; 12288]%N
  = [OK 9; OK 9; OK 9; OK 9; OK 9; OK 9; OK 9; OK 9; OK 9].
Proof. reflexivity. Qed.

Example int_of_nothing : py_int [] = Raise ValueError.
Proof. reflexivity. Qed.

Example round_ties :
  map round_half_even [1 # 2; 3 # 2; 5 # 2; -1 # 2; -3 # 2; 256 # 10]%Q
  = [0; 2; 2; 0; -2; 26].
Proof. reflexivity. Qed.

Example str_of_negative : str_of_int (-25) = u "-25".
Proof. reflexivity. Qed.

Example ordinal_20240101 : toordinal six_20240101 = 738886.
Proof. reflexivity. Qed.

Example date_line_20240101 :
  strftime_date_line windows_c_locale six_20240101
  = u "Monday, January 1, 2024".
Proof. reflexivity. Qed.

Example today_20240101 : strftime_Ymd six_20240101 = u "2024-01-01".
Proof. reflexivity. Qed.

Example next_day_of_leap_february :
  plus_one_day (at_time 2024 2 29 6 0 0 0) = OK (at_time 2024 3 1 6 0 0 0).
Proof. reflexivity. Qed.

Example no_day_after_the_last :
  plus_one_day (at_time 9999 12 31 6 0 0 0) = Raise OverflowError.
Proof. reflexivity. Qed.

(** * Lemmas on the loops *)

Ltac inv H := inversion H; subst; clear H.

(** Split a hypothesis [(x <- m ;; k) = OK r] on the outcome of [m]. *)
Tactic Notation "bind_ok" hyp(H) "as" ident(x) ident(E) :=
  match type of H with
  | rbind ?m _ = OK _ =>
      destruct m as [ x | ] eqn:E; cbn [rbind] in H; [ | discriminate H ]
  end.

Lemma for_each_app {S X : Type} (body : S -> X -> result S) (xs ys : list X) s :
  for_each body (xs ++ ys) s = (s' <- for_each body xs s ;; for_each body ys s').
Proof.
  revert s; induction xs as [ | x xs IH ]; intros s; cbn; [ reflexivity | ].
  destruct (body s x); cbn; auto.
Qed.

Section HourlyLoop.

Variables (today_str : pystr) (times temps rains : json).

Let body := hourly_body today_str times temps rains.

Lemma hourly_body_retained f w i f' w' :
  body (f, w) i = OK (f', w') ->
  entry_retained today_str times i = true ->
  f' = push times temps rains f i /\ w' = (wet_at rains i || w)%bool.
Proof.
  unfold body, hourly_body, entry_retained, in_window, push, time_at,
    value_at, wet_at.
  intros H R.
  destruct (py_getitem times i) as [ [ | | | | t | | ] | ]; try discriminate.
  cbn [rbind] in H.
  destruct (startswith t today_str); [ | discriminate ].
  cbn [andb] in R.
  destruct (py_int (slice 11 13 t)) as [ h | ]; [ | discriminate ].
  cbn [rbind] in H. rewrite R in H.
  bind_ok H as nt Ent. bind_ok H as temp Etemp.
  bind_ok H as nr Enr. bind_ok H as rain Erain.
  bind_ok H as r Er. bind_ok H as wet Ewet.
  inv H.
  destruct (i <? nt)%nat, (i <? nr)%nat;
    repeat match goal with
           | E : OK _ = OK _ |- _ => inv E
           | E : ?x = OK _ |- context [?x] => rewrite E
           end;
    (split; [ reflexivity | destruct wet; reflexivity ]).
Qed.

Lemma hourly_body_skipped f w i f' w' :
  body (f, w) i = OK (f', w') ->
  entry_retained today_str times i = false ->
  f' = f /\ w' = w.
Proof.
  unfold body, hourly_body, entry_retained, in_window.
  intros H R.
  destruct (py_getitem times i) as [ [ | | | | t | | ] | ]; try discriminate.
  cbn [rbind] in H.
  destruct (startswith t today_str); [ | inv H; auto ].
  cbn [andb] in R.
  destruct (py_int (slice 11 13 t)) as [ h | ]; [ | discriminate ].
  cbn [rbind] in H. rewrite R in H. inv H; auto.
Qed.

Lemma hourly_loop idx : forall f w f' w',
  for_each body idx (f, w) = OK (f', w') ->
  let kept := filter (entry_retained today_str times) idx in
  filtered_times f' = filtered_times f ++ map (time_at times) kept /\
  filtered_temps f' = filtered_temps f ++ map (value_at temps) kept /\
  filtered_rains f' = filtered_rains f ++ map (value_at rains) kept /\
  w' = (w || existsb (wet_at rains) kept)%bool.
Proof.
  induction idx as [ | i idx IH ]; intros f w f' w' H; cbn in *.
  - inv H. rewrite !app_nil_r, orb_false_r. auto.
  - bind_ok H as s1 E. destruct s1 as [f1 w1].
    apply IH in H. destruct H as (Ht & Hp & Hr & Hw).
    destruct (entry_retained today_str times i) eqn:R.
    + apply hourly_body_retained in E; [ | exact R ].
      destruct E as [-> ->]. cbn in *.
      rewrite Ht, Hp, Hr, Hw, <- !app_assoc. cbn.
      repeat split; auto.
      destruct (wet_at rains i), w; reflexivity.
    + apply hourly_body_skipped in E; [ | exact R ].
      destruct E as [-> ->]. auto.
Qed.

End HourlyLoop.

(** A loop whose body only appends to its state behaves the same from any
    start: it fails or succeeds alike, and adds the same. *)
Section Frame.

Variables (S X : Type) (body : S -> X -> result S).
Variables (unit_ : S) (op : S -> S -> S).

Hypothesis op_unit_r : forall s, op s unit_ = s.
Hypothesis op_assoc : forall a b c, op a (op b c) = op (op a b) c.
Hypothesis body_frame : forall s x, body s x = framed op (body unit_ x) s.

Lemma for_each_frame xs : forall s,
  for_each body xs s = framed op (for_each body xs unit_) s.
Proof.
  induction xs as [ | x xs IH ]; intros s; cbn.
  - rewrite op_unit_r. reflexivity.
  - rewrite (body_frame s x).
    destruct (body unit_ x) as [ d | e ]; cbn; [ | reflexivity ].
    rewrite (IH (op s d)), (IH d).
    destruct (for_each body xs unit_); cbn; [ | reflexivity ].
    rewrite op_assoc. reflexivity.
Qed.

End Frame.

Section CollectLoop.

Variables (today_str : pystr) (fetch : pyfloat -> pyfloat -> result json).

Lemma collect_body_spec lds w loc lds' w' :
  collect_body today_str fetch (lds, w) loc = OK (lds', w') ->
  exists fc,
    forecast_of fetch loc = OK fc /\
    lds' = lds ++ [data_of today_str fc] /\
    w' = (w || rainy today_str fc)%bool.
Proof.
  unfold collect_body, forecast_of. intros H.
  bind_ok H as data Edata. bind_ok H as hourly Eh.
  bind_ok H as times Et. bind_ok H as temps Ep. bind_ok H as rains Er.
  bind_ok H as n En. bind_ok H as s E. destruct s as [f w1]. inv H.
  eexists; split;
    [ cbn [rbind]; cbv beta; rewrite Eh; cbn [rbind]; cbv beta;
      rewrite Et; cbn [rbind]; cbv beta; rewrite Ep; cbn [rbind]; cbv beta;
      rewrite Er; reflexivity | ].
  apply hourly_loop in E. cbn in E. destruct E as (Ht & Hp & Hr & ->).
  unfold data_of, rainy, retained, entry_count. cbn. rewrite En, Ht, Hp, Hr.
  auto.
Qed.

Lemma collect_loop locs : forall lds w lds' w',
  for_each (collect_body today_str fetch) locs (lds, w) = OK (lds', w') ->
  exists fcs,
    forecasts fetch locs fcs /\
    lds' = lds ++ map (data_of today_str) fcs /\
    w' = (w || existsb (rainy today_str) fcs)%bool.
Proof.
  induction locs as [ | loc locs IH ]; intros lds w lds' w' H; cbn in H.
  - inv H. exists []. rewrite app_nil_r, orb_false_r.
    repeat split; constructor.
  - bind_ok H as s E. destruct s as [lds1 w1].
    apply collect_body_spec in E. destruct E as (fc & Hfc & -> & ->).
    apply IH in H. destruct H as (fcs & Hfcs & -> & ->).
    exists (fc :: fcs). cbn. rewrite <- app_assoc, orb_assoc.
    repeat split; auto. constructor; assumption.
Qed.

End CollectLoop.

Lemma skipn_nth_error {A : Type} (l : list A) : forall k x,
  nth_error l k = Some x -> skipn k l = x :: skipn (S k) l.
Proof.
  induction l as [ | a l IH ]; intros [ | k ] x H; cbn in *; try discriminate.
  - inv H. reflexivity.
  - apply IH in H. rewrite H. destruct l; reflexivity.
Qed.

Section RenderLoop.

Variables (today_str : pystr) (fc : forecast).

Let d := data_of today_str fc.
Let idx := retained today_str (fc_times fc).

Lemma render_value_shown v s : render_value v = OK s -> shown v = s.
Proof. unfold shown. intros ->. reflexivity. Qed.

Lemma line_body_spec msg i msg' :
  line_body d msg i = OK msg' ->
  exists j, nth_error idx i = Some j /\ msg' = msg ++ spec_line fc j.
Proof.
  unfold line_body, list_item, d, data_of, spec_line.
  cbn [ld_times ld_temps ld_rains]. fold idx.
  rewrite !nth_error_map. intros H.
  destruct (nth_error idx i) as [ j | ]; cbn [option_map rbind] in H;
    [ | discriminate ].
  bind_ok H as temp Et. bind_ok H as rain Er. inv H.
  apply render_value_shown in Et, Er.
  exists j. rewrite Et, Er. split; reflexivity.
Qed.

Lemma lines_loop n : forall k msg msg',
  for_each (line_body d) (seq k n) msg = OK msg' ->
  msg' = msg ++ List.concat (map (spec_line fc) (firstn n (skipn k idx))).
Proof.
  induction n as [ | n IH ]; intros k msg msg' H; cbn in H.
  - inv H. cbn. rewrite app_nil_r. reflexivity.
  - bind_ok H as m1 E.
    apply line_body_spec in E. destruct E as (j & Hj & ->).
    apply IH in H. rewrite (skipn_nth_error _ _ _ Hj). cbn.
    rewrite H, <- app_assoc. reflexivity.
Qed.

Lemma block_body_spec msg msg' :
  block_body msg d = OK msg' -> msg' = msg ++ spec_block today_str fc.
Proof.
  unfold block_body. intros H. bind_ok H as m E. inv H.
  apply lines_loop in E. subst m.
  unfold d, data_of in *. cbn. rewrite length_map. fold idx.
  rewrite firstn_all. unfold spec_block, spec_lines. fold idx.
  rewrite <- !app_assoc. reflexivity.
Qed.

End RenderLoop.

Lemma blocks_loop today_str fcs : forall msg msg',
  for_each block_body (map (data_of today_str) fcs) msg = OK msg' ->
  msg' = msg ++ List.concat (map (spec_block today_str) fcs).
Proof.
  induction fcs as [ | fc fcs IH ]; intros msg msg' H; cbn in H.
  - inv H. cbn. rewrite app_nil_r. reflexivity.
  - bind_ok H as m E. apply block_body_spec in E. subst m.
    apply IH in H. rewrite H. cbn. rewrite <- app_assoc. reflexivity.
Qed.

(** Every message [build_message] returns is the header followed by the
    blocks of the forecasts. *)
Lemma build_message_shape locations p e msg :
  build_message_at locations p e = OK msg ->
  exists fcs,
    forecasts (fetch_weather e) locations fcs /\
    msg = header p e (existsb (rainy (today_of e)) fcs)
          ++ List.concat (map (spec_block (today_of e)) fcs).
Proof.
  unfold build_message_at. intros H.
  bind_ok H as s E. destruct s as [lds w].
  apply collect_loop in E. destruct E as (fcs & Hfcs & -> & ->).
  cbn [app orb] in H.
  apply blocks_loop in H. exists fcs. split; [ exact Hfcs | ].
  rewrite H. unfold header, today_of. rewrite <- !app_assoc. reflexivity.
Qed.

Lemma py_getitem_in_range v i x :
  py_getitem v i = OK x -> (i < entry_count v)%nat.
Proof.
  unfold entry_count.
  destruct v; cbn; try discriminate;
    destruct (nth_error _ i) eqn:E; try discriminate; intros _;
    apply nth_error_Some; congruence.
Qed.

Lemma retained_In today_str times i :
  In i (retained today_str times) <-> retained_hour today_str times i.
Proof.
  unfold retained, retained_hour, entry_retained, in_window.
  rewrite filter_In, in_seq. split.
  - intros [_ H].
    destruct (py_getitem times i) as [ [ | | | | t | | ] | ]; try discriminate.
    apply andb_true_iff in H. destruct H as [Hs Hh].
    destruct (py_int (slice 11 13 t)) as [ h | ] eqn:Eh; [ | discriminate ].
    apply andb_true_iff in Hh. destruct Hh as [H8 H20].
    apply Z.leb_le in H8, H20.
    exists t, h. repeat split; auto.
  - intros (t & h & Ht & Hs & Hh & Hr).
    split; [ apply py_getitem_in_range in Ht; lia | ].
    rewrite Ht, Hs, Hh. cbn [andb].
    apply andb_true_iff; split; apply Z.leb_le; lia.
Qed.

Lemma py_ge_30_true r : py_ge_30 r = OK true <-> at_least_30 r.
Proof.
  destruct r as [ | b | z | [ q | | | ] | s | l | d ]; cbn;
    try (split; [ discriminate | contradiction ]);
    try (split; [ reflexivity | discriminate ]);
    try (split; auto; fail).
  - rewrite <- Z.leb_le. split; [ intros H; inv H; auto | intros ->; auto ].
  - rewrite <- Qle_bool_iff. split; [ intros H; inv H; auto | intros ->; auto ].
Qed.

Lemma wet_at_true rains i :
  wet_at rains i = true <->
  exists r, py_getitem rains i = OK r /\ at_least_30 r.
Proof.
  unfold wet_at. split.
  - destruct (py_getitem rains i) as [ r | ]; [ | discriminate ].
    destruct (py_ge_30 r) as [ b | ] eqn:E; [ | discriminate ].
    intros ->. exists r. split; [ reflexivity | apply py_ge_30_true, E ].
  - intros (r & -> & H). apply py_ge_30_true in H. rewrite H. reflexivity.
Qed.

Lemma forecasts_In_r fetch locs fcs fc :
  forecasts fetch locs fcs -> In fc fcs ->
  exists loc, In loc locs /\ forecast_of fetch loc = OK fc.
Proof.
  induction 1 as [ | loc fc' locs fcs H _ IH ]; cbn; [ contradiction | ].
  intros [ <- | Hin ]; [ exists loc; auto | ].
  destruct (IH Hin) as (l & ? & ?). exists l; auto.
Qed.

Lemma forecasts_In_l fetch locs fcs loc fc :
  forecasts fetch locs fcs -> In loc locs -> forecast_of fetch loc = OK fc ->
  In fc fcs.
Proof.
  induction 1 as [ | loc' fc' locs fcs H _ IH ]; cbn; [ contradiction | ].
  intros [ <- | Hin ] Hfc; [ left; congruence | right; auto ].
Qed.

Lemma rainy_forecasts locations e fcs :
  forecasts (fetch_weather e) locations fcs ->
  existsb (rainy (today_of e)) fcs = true <-> rain_expected locations e.
Proof.
  intros Hfcs. unfold rain_expected, rainy. rewrite existsb_exists. split.
  - intros (fc & Hin & Hw). apply existsb_exists in Hw.
    destruct Hw as (i & Hi & Hw).
    apply retained_In in Hi. apply wet_at_true in Hw.
    destruct Hw as (r & Hr & H30).
    destruct (forecasts_In_r _ _ _ _ Hfcs Hin) as (loc & Hloc & Hfc).
    exists loc, fc, i, r. auto.
  - intros (loc & fc & i & r & Hloc & Hfc & Hi & Hr & H30).
    exists fc. split; [ eapply forecasts_In_l; eauto | ].
    apply existsb_exists. exists i. split; [ apply retained_In, Hi | ].
    apply wet_at_true. exists r. auto.
Qed.


(** The rendering loops only append to [msg]. *)
Lemma line_body_frame loc msg i :
  line_body loc msg i = framed (@app N) (line_body loc [] i) msg.
Proof.
  unfold line_body.
  destruct (list_item (ld_times loc) i); cbn [rbind framed]; [ | reflexivity ].
  destruct (list_item (ld_temps loc) i) as [ tv | ]; cbn [rbind framed];
    [ | reflexivity ].
  destruct (render_value tv); cbn [rbind framed]; [ | reflexivity ].
  destruct (list_item (ld_rains loc) i) as [ rv | ]; cbn [rbind framed];
    [ | reflexivity ].
  destruct (render_value rv); cbn [rbind framed app]; reflexivity.
Qed.

Lemma lines_frame loc idx msg :
  for_each (line_body loc) idx msg
  = framed (@app N) (for_each (line_body loc) idx []) msg.
Proof.
  apply for_each_frame.
  - apply app_nil_r.
  - apply app_assoc.
  - apply line_body_frame.
Qed.

Lemma block_body_frame msg loc :
  block_body msg loc = framed (@app N) (block_body [] loc) msg.
Proof.
  unfold block_body. cbn [app].
  rewrite lines_frame.
  rewrite (lines_frame loc _ (ld_name loc ++ u ":" ++ NL)).
  destruct (for_each (line_body loc) _ []); cbn [rbind framed];
    [ | reflexivity ].
  rewrite <- !app_assoc. reflexivity.
Qed.

Lemma blocks_frame lds msg :
  for_each block_body lds msg
  = framed (@app N) (for_each block_body lds []) msg.
Proof.
  apply for_each_frame.
  - apply app_nil_r.
  - apply app_assoc.
  - apply block_body_frame.
Qed.

(** The platform's date line is a prefix that nothing else depends on. *)
Lemma build_message_at_date_line locations p e :
  build_message_at locations p e
  = framed (@app N)
      (build_message_at locations {| strftime_date_line := fun _ => [] |} e)
      (strftime_date_line p (clock_msg_now e)).
Proof.
  unfold build_message_at. cbn [strftime_date_line].
  destruct (for_each _ locations ([], false)) as [ [lds w] | ];
    cbn [rbind framed]; [ | reflexivity ].
  rewrite blocks_frame.
  rewrite (blocks_frame lds ([] ++ _)).
  destruct (for_each block_body lds []); cbn [framed app]; [ | reflexivity ].
  rewrite <- !app_assoc. reflexivity.
Qed.

Lemma seq_increasing n : forall a, increasing (seq a n).
Proof.
  induction n as [ | n IH ]; intros a; cbn; constructor.
  - apply IH.
  - apply Forall_forall. intros x Hx. apply in_seq in Hx. lia.
Qed.

Lemma filter_increasing (f : nat -> bool) idx :
  increasing idx -> increasing (filter f idx).
Proof.
  induction 1 as [ | i idx _ IH Hall ]; cbn; [ constructor | ].
  destruct (f i); [ | exact IH ].
  constructor; [ exact IH | ].
  apply Forall_forall. intros x Hx. apply filter_In in Hx.
  rewrite Forall_forall in Hall. apply Hall, Hx.
Qed.

Lemma retained_increasing today_str times :
  increasing (retained today_str times).
Proof. apply filter_increasing, seq_increasing. Qed.

(** ** Rounding *)

Lemma round_half_even_nearest q : nearest_even q (round_half_even q).
Proof.
  unfold nearest_even, round_half_even.
  pose proof (Qfloor_le q) as Hlo. pose proof (Qlt_floor q) as Hhi.
  rewrite inject_Z_plus in Hhi. change (inject_Z 1) with 1%Q in Hhi.
  set (f := Qfloor q) in *.
  destruct (Qcompare (q - inject_Z f) (1 # 2)) eqn:C.
  - apply Qeq_alt in C.
    destruct (Z.even f) eqn:Ev.
    + split; [ | auto ].
      rewrite Qabs_pos by lra. lra.
    + assert (E1 : (q - inject_Z (f + 1) == - (1 # 2))%Q)
        by (rewrite inject_Z_plus; change (inject_Z 1) with 1%Q; lra).
      split.
      * rewrite E1. cbn. apply Qle_refl.
      * intros _. rewrite Z.add_1_r, Z.even_succ, <- Z.negb_even, Ev.
        reflexivity.
  - apply Qlt_alt in C. split.
    + rewrite Qabs_pos by lra. lra.
    + intros A. rewrite Qabs_pos in A by lra. lra.
  - apply Qgt_alt in C.
    assert (E1 : (inject_Z (f + 1) == inject_Z f + 1)%Q)
      by (rewrite inject_Z_plus; reflexivity).
    split.
    + rewrite Qabs_neg by lra. lra.
    + intros A. rewrite Qabs_neg in A by lra. lra.
Qed.

Lemma round_half_even_int z : round_half_even (inject_Z z) = z.
Proof.
  unfold round_half_even. rewrite Qfloor_Z.
  assert (C : Qcompare (inject_Z z - inject_Z z) (1 # 2) = Lt)
    by (apply (proj1 (Qlt_alt _ _)); generalize (inject_Z z); intros x; lra).
  rewrite C. reflexivity.
Qed.

Lemma render_value_number v q :
  number v q -> render_value v = OK (str_of_int (round_half_even q)).
Proof.
  intros [ z | q' ]; cbn; [ rewrite round_half_even_int | ]; reflexivity.
Qed.

(** ** Locations without hourly data *)

Lemma collect_body_no_hourly today_str fetch loc data lds w :
  fetch (lat loc) (lon loc) = OK data ->
  no_hourly_data data ->
  collect_body today_str fetch (lds, w) loc
  = OK (lds ++ [empty_data (name loc)], w).
Proof.
  intros Hfetch (entries & -> & Hm).
  unfold collect_body. rewrite Hfetch. cbn [rbind dict_get].
  destruct (assoc (u "hourly") entries) as [ [ | | | | | | h ] | ];
    try contradiction; cbn [rbind dict_get].
  - destruct (assoc (u "time") h) as [ [ | | | | | [ | ] | ] | ];
      try contradiction; reflexivity.
  - reflexivity.
Qed.

Lemma block_body_empty msg place :
  block_body msg (empty_data place) = OK (msg ++ empty_block place).
Proof.
  unfold block_body, empty_block. cbn. rewrite <- !app_assoc. reflexivity.
Qed.

(** The collecting loop only appends to [location_data]. *)
Lemma collect_body_frame today_str fetch lds w loc :
  collect_body today_str fetch (lds, w) loc
  = match collect_body today_str fetch ([], w) loc with
    | OK (d, w') => OK (lds ++ d, w')
    | Raise x => Raise x
    end.
Proof.
  unfold collect_body.
  destruct (fetch (lat loc) (lon loc)) as [ data | ]; cbn [rbind];
    [ | reflexivity ].
  destruct (dict_get data _ _) as [ hourly | ]; cbn [rbind]; [ | reflexivity ].
  destruct (dict_get hourly (u "time") _) as [ times | ]; cbn [rbind];
    [ | reflexivity ].
  destruct (dict_get hourly (u "temperature_2m") _) as [ temps | ];
    cbn [rbind]; [ | reflexivity ].
  destruct (dict_get hourly (u "precipitation_probability") _) as [ rains | ];
    cbn [rbind]; [ | reflexivity ].
  destruct (py_len times) as [ n | ]; cbn [rbind]; [ | reflexivity ].
  destruct (for_each _ (seq 0 n) _) as [ [f w'] | ]; cbn [rbind app];
    reflexivity.
Qed.

Lemma collect_frame today_str fetch locs : forall lds w,
  for_each (collect_body today_str fetch) locs (lds, w)
  = match for_each (collect_body today_str fetch) locs ([], w) with
    | OK (d, w') => OK (lds ++ d, w')
    | Raise x => Raise x
    end.
Proof.
  induction locs as [ | loc locs IH ]; intros lds w; cbn [for_each].
  - rewrite app_nil_r. reflexivity.
  - rewrite collect_body_frame.
    destruct (collect_body today_str fetch ([], w) loc) as [ [d w1] | ];
      cbn [rbind]; [ | reflexivity ].
    rewrite (IH (lds ++ d)), (IH d).
    destruct (for_each _ locs ([], w1)) as [ [d2 w2] | ]; [ | reflexivity ].
    rewrite app_assoc. reflexivity.
Qed.

(** ** The calendar *)

Lemma is_leap_spec y :
  is_leap y = true <-> y mod 4 = 0 /\ (y mod 100 <> 0 \/ y mod 400 = 0).
Proof.
  unfold is_leap.
  rewrite andb_true_iff, orb_true_iff, negb_true_iff, !Z.eqb_eq, Z.eqb_neq.
  reflexivity.
Qed.

(** A year has 365 days, and one more when it is a leap year. *)
Lemma days_before_next_year y :
  days_before_year (y + 1)
  = days_before_year y + 365 + (if is_leap y then 1 else 0).
Proof.
  unfold days_before_year.
  replace (y + 1 - 1) with y by lia.
  destruct (is_leap y) eqn:L.
  - apply is_leap_spec in L.
    Z.div_mod_to_equations. lia.
  - assert (N : ~ (y mod 4 = 0 /\ (y mod 100 <> 0 \/ y mod 400 = 0)))
      by (rewrite <- is_leap_spec, L; discriminate).
    Z.div_mod_to_equations. lia.
Qed.

Lemma valid_datetime_fields d :
  valid_datetime d = true ->
  1 <= year d <= MAXYEAR /\ 1 <= month d <= 12 /\
  1 <= day d <= days_in_month (year d) (month d) /\
  0 <= hour d < 24 /\ 0 <= minute d < 60 /\ 0 <= second d < 60 /\
  0 <= microsecond d < 1000000.
Proof.
  unfold valid_datetime. rewrite !andb_true_iff, !Z.leb_le, !Z.ltb_lt. lia.
Qed.

Lemma valid_datetime_intro d :
  1 <= year d <= MAXYEAR -> 1 <= month d <= 12 ->
  1 <= day d <= days_in_month (year d) (month d) ->
  0 <= hour d < 24 -> 0 <= minute d < 60 -> 0 <= second d < 60 ->
  0 <= microsecond d < 1000000 ->
  valid_datetime d = true.
Proof.
  unfold valid_datetime. rewrite !andb_true_iff, !Z.leb_le, !Z.ltb_lt. lia.
Qed.

Lemma compare_Lt x y : x < y -> (x ?= y) = Lt.
Proof. apply Z.compare_lt_iff. Qed.

Ltac month_cases m :=
  let H := fresh "Hm" in
  assert (H : m = 1 \/ m = 2 \/ m = 3 \/ m = 4 \/ m = 5 \/ m = 6 \/ m = 7
              \/ m = 8 \/ m = 9 \/ m = 10 \/ m = 11 \/ m = 12) by lia;
  repeat (destruct H as [ H | H ]; [ rewrite H in * | ]);
  [ .. | rewrite H in * ].

(** [plus_one_day] is the successor on ordinals and keeps the time of day:
    it agrees with [fromordinal (toordinal d + 1)]. *)
Lemma plus_one_day_spec d d' :
  valid_datetime d = true ->
  plus_one_day d = OK d' ->
  toordinal d' = toordinal d + 1 /\
  valid_datetime d' = true /\
  hour d' = hour d /\ minute d' = minute d /\ second d' = second d /\
  microsecond d' = microsecond d /\
  lex_compare [year d; month d; day d] [year d'; month d'; day d'] = Lt.
Proof.
  intros V H. apply valid_datetime_fields in V.
  destruct V as (Vy & Vm & Vd & Vh & Vmi & Vs & Vus).
  unfold plus_one_day in H. unfold MAXYEAR in *.
  destruct ((year d =? 9999) && (month d =? 12) && (day d =? 31)) eqn:Last;
    [ discriminate | ].
  assert (NotLast : ~ (year d = 9999 /\ month d = 12 /\ day d = 31)).
  { intros (A & B & C). rewrite A, B, C in Last. discriminate. }
  destruct (day d <? days_in_month (year d) (month d)) eqn:Dlt.
  - apply Z.ltb_lt in Dlt. inv H. unfold toordinal. cbn.
    repeat split; try lia.
    + apply valid_datetime_intro; cbn; unfold MAXYEAR; lia.
    + rewrite !Z.compare_refl, (compare_Lt (day d) (day d + 1)) by lia.
      reflexivity.
  - apply Z.ltb_ge in Dlt.
    destruct (month d <? 12) eqn:Mlt.
    + apply Z.ltb_lt in Mlt. inv H. unfold toordinal. cbn.
      repeat split; try lia.
      * unfold days_before_month.
        month_cases (month d); cbn in *; try lia;
          destruct (is_leap (year d)); cbn in *; lia.
      * apply valid_datetime_intro; cbn; unfold MAXYEAR; try lia.
        month_cases (month d); cbn; try lia;
          destruct (is_leap (year d)); lia.
      * rewrite Z.compare_refl, (compare_Lt (month d) (month d + 1)) by lia.
        reflexivity.
    + apply Z.ltb_ge in Mlt. inv H. unfold toordinal. cbn.
      assert (M12 : month d = 12) by lia. rewrite M12 in *. cbn in *.
      repeat split; try lia.
      * rewrite days_before_next_year. unfold days_before_month. cbn.
        destruct (is_leap (year d)); cbn; lia.
      * apply valid_datetime_intro; cbn; unfold MAXYEAR; lia.
      * rewrite (compare_Lt (year d) (year d + 1)) by lia.
        reflexivity.
Qed.

(** ** The target of the scheduler *)

Lemma lex_compare_prefix_Lt a : forall b c c',
  lex_compare a b = Lt -> List.length a = List.length b ->
  lex_compare (a ++ c) (b ++ c') = Lt.
Proof.
  induction a as [ | x a IH ]; intros [ | y b ] c c' H L; cbn in *;
    try discriminate.
  destruct (x ?= y); try discriminate; auto.
Qed.

Lemma dt_lt_target_today now_ph :
  valid_datetime now_ph = true ->
  dt_lt now_ph (target_today now_ph) = true <-> hour now_ph < 6.
Proof.
  intros V. apply valid_datetime_fields in V.
  destruct V as (_ & _ & _ & Vh & Vmi & Vs & Vus).
  unfold dt_lt, fields, target_today. cbn. rewrite !Z.compare_refl.
  destruct (Z.compare_spec (hour now_ph) 6) as [ E | L | G ].
  - destruct (Z.compare_spec (minute now_ph) 0);
      destruct (Z.compare_spec (second now_ph) 0);
      destruct (Z.compare_spec (microsecond now_ph) 0);
      split; try discriminate; lia.
  - split; auto.
  - split; [ discriminate | lia ].
Qed.

Lemma target_today_valid now_ph :
  valid_datetime now_ph = true -> valid_datetime (target_today now_ph) = true.
Proof.
  intros V. apply valid_datetime_fields in V.
  apply valid_datetime_intro; cbn; lia.
Qed.

(** The scheduler's target is a good one, for every reading of the clock
    but the last day of year 9999. *)
Lemma next_target_good now_ph :
  valid_datetime now_ph = true ->
  ~ last_day now_ph ->
  exists target, next_target now_ph = OK target /\ good_target now_ph target.
Proof.
  intros V NL. pose proof (dt_lt_target_today _ V) as Hlt.
  pose proof (target_today_valid _ V) as Vt.
  pose proof (valid_datetime_fields _ V)
    as (Vy & Vm & Vd & Vh & Vmi & Vs & Vus).
  unfold next_target, dt_ge.
  destruct (dt_lt now_ph (target_today now_ph)) eqn:E; cbn [negb].
  - assert (H6 : hour now_ph < 6) by (apply Hlt; reflexivity).
    exists (target_today now_ph). split; [ reflexivity | ].
    unfold good_target, at_six. repeat split; auto; try lia.
    unfold to_microseconds, toordinal; cbn. lia.
  - assert (H6 : 6 <= hour now_ph).
    { destruct (Z.lt_ge_cases (hour now_ph) 6) as [ L | G ]; [ | exact G ].
      apply Hlt in L. discriminate. }
    destruct (plus_one_day (target_today now_ph)) as [ target | x ] eqn:P.
    + exists target. split; [ reflexivity | ].
      apply plus_one_day_spec in P; [ | exact Vt ].
      destruct P as (Ho & Vn & Eh & Emi & Es & Eus & Hlex).
      cbn in Eh, Emi, Es, Eus, Hlex.
      assert (Ho' : toordinal target = toordinal now_ph + 1)
        by (rewrite Ho; reflexivity).
      unfold good_target, at_six. repeat split; auto; try lia.
      * unfold dt_lt, fields.
        change [year now_ph; month now_ph; day now_ph; hour now_ph;
                minute now_ph; second now_ph; microsecond now_ph]
          with ([year now_ph; month now_ph; day now_ph]
                ++ [hour now_ph; minute now_ph; second now_ph;
                    microsecond now_ph]).
        change [year target; month target; day target; hour target;
                minute target; second target; microsecond target]
          with ([year target; month target; day target]
                ++ [hour target; minute target; second target;
                    microsecond target]).
        rewrite lex_compare_prefix_Lt; auto.
      * unfold to_microseconds. rewrite Ho', Eh, Emi, Es, Eus. lia.
    + exfalso. apply NL. unfold plus_one_day in P. cbn in P.
      destruct ((year now_ph =? MAXYEAR) && (month now_ph =? 12)
                && (day now_ph =? 31)) eqn:Last.
      * apply andb_true_iff in Last. destruct Last as [Last Ld].
        apply andb_true_iff in Last. destruct Last as [Ly Lm].
        apply Z.eqb_eq in Ly, Lm, Ld. unfold last_day. auto.
      * destruct (day now_ph <? _); [ discriminate | ].
        destruct (month now_ph <? 12); discriminate.
Qed.

(** ** One iteration of the loop *)

Lemma main_iteration_no_message c p e target_ph x :
  next_target (clock_main_ph e) = OK target_ph ->
  build_message c p e = Raise x ->
  main_iteration c p e = (iteration_prefix e target_ph, Raise x).
Proof.
  intros Ht Hb. unfold main_iteration, iteration_prefix.
  rewrite Ht, Hb. unfold lift, emit, mret, mbind.
  destruct (0 <? delay_of target_ph (clock_main_utc e)); reflexivity.
Qed.

Lemma main_iteration_message c p e target_ph msg :
  next_target (clock_main_ph e) = OK target_ph ->
  build_message c p e = OK msg ->
  main_iteration c p e
  = match send_message e (CHAT_ID c) msg with
    | OK _ =>
        (iteration_prefix e target_ph
           ++ [Send (CHAT_ID c) msg; Print LogSent], OK tt)
    | Raise x =>
        if is_Exception x
        then (iteration_prefix e target_ph
                ++ [Send (CHAT_ID c) msg; Print (LogFailed x);
                    Sleep RETRY_PAUSE], OK tt)
        else (iteration_prefix e target_ph ++ [Send (CHAT_ID c) msg], Raise x)
    end.
Proof.
  intros Ht Hb. unfold main_iteration, iteration_prefix.
  rewrite Ht, Hb. unfold lift, emit, mret, mbind, try_except_Exception.
  destruct (send_message e (CHAT_ID c) msg) as [ [] | x ];
    [ | destruct (is_Exception x) ];
    destruct (0 <? delay_of target_ph (clock_main_utc e)); reflexivity.
Qed.

Lemma main_iteration_starts c p e target_ph :
  next_target (clock_main_ph e) = OK target_ph ->
  exists t r,
    main_iteration c p e
    = (Print (LogCurrent (clock_main_ph e))
         :: Print (LogSchedule target_ph
                     (delay_of target_ph (clock_main_utc e))) :: t, r).
Proof.
  intros Ht.
  destruct (build_message c p e) as [ msg | x ] eqn:Hb.
  - rewrite (main_iteration_message _ _ _ _ _ Ht Hb).
    destruct (send_message e (CHAT_ID c) msg) as [ [] | x ];
      [ | destruct (is_Exception x) ]; eexists; eexists; reflexivity.
  - rewrite (main_iteration_no_message _ _ _ _ _ Ht Hb).
    eexists; eexists; reflexivity.
Qed.

Lemma main_starts c p e rest target_ph :
  next_target (clock_main_ph e) = OK target_ph ->
  exists t,
    fst (main c p (e :: rest))
    = Print (LogCurrent (clock_main_ph e))
        :: Print (LogSchedule target_ph
                    (delay_of target_ph (clock_main_utc e))) :: t.
Proof.
  intros Ht. destruct (main_iteration_starts c p e _ Ht) as (t & r & H).
  cbn [main]. rewrite H.
  destruct r as [ [] | x ].
  - destruct (main c p rest). eexists; reflexivity.
  - destruct x; eexists; reflexivity.
Qed.

(** A fetch that raises makes [build_message] raise the same exception. *)
Lemma build_message_fetch_raises locations p e pre loc post s x :
  locations = pre ++ loc :: post ->
  for_each (collect_body (today_of e) (fetch_weather e)) pre ([], false)
  = OK s ->
  fetch_weather e (lat loc) (lon loc) = Raise x ->
  build_message_at locations p e = Raise x.
Proof.
  intros -> Hpre Hfetch. unfold build_message_at. fold (today_of e).
  rewrite for_each_app, Hpre. cbn [rbind for_each].
  destruct s as [lds w]. unfold collect_body at 1. rewrite Hfetch.
  reflexivity.
Qed.

(** ** Missing rain values

    The threshold test reads [rains[i]] without the guard of the line
    before it, so the hourly loop raises on a retained hour whose rain
    value is missing: no message that is returned has lost one. *)

Lemma hourly_body_rain_present today_str times temps rains s i s' :
  hourly_body today_str times temps rains s i = OK s' ->
  entry_retained today_str times i = true ->
  value_at rains i <> JNull.
Proof.
  unfold hourly_body, entry_retained, in_window, value_at.
  destruct s as [f w]. intros H R.
  destruct (py_getitem times i) as [ [ | | | | t | | ] | ]; try discriminate.
  cbn [rbind] in H.
  destruct (startswith t today_str); [ | discriminate ].
  cbn [andb] in R.
  destruct (py_int (slice 11 13 t)) as [ h | ]; [ | discriminate ].
  cbn [rbind] in H. rewrite R in H.
  bind_ok H as nt Ent. bind_ok H as temp Etemp.
  bind_ok H as nr Enr. bind_ok H as rain Erain.
  bind_ok H as r Er. bind_ok H as wet Ewet.
  pose proof (py_getitem_in_range _ _ _ Er) as Hi.
  unfold entry_count in Hi. rewrite Enr in Hi.
  apply Nat.ltb_lt in Hi. rewrite Hi.
  destruct r; try discriminate.
Qed.

Lemma hourly_loop_rain_present today_str times temps rains idx : forall s s',
  for_each (hourly_body today_str times temps rains) idx s = OK s' ->
  forall i, In i idx -> entry_retained today_str times i = true ->
            value_at rains i <> JNull.
Proof.
  induction idx as [ | j idx IH ]; intros s s' H i Hin R; cbn in *;
    [ contradiction | ].
  bind_ok H as s1 E. destruct Hin as [ <- | Hin ].
  - eapply hourly_body_rain_present; eauto.
  - eapply IH; eauto.
Qed.

Lemma collect_body_rain_present today_str fetch s loc s' fc :
  collect_body today_str fetch s loc = OK s' ->
  forecast_of fetch loc = OK fc ->
  forall i, In i (retained today_str (fc_times fc)) ->
            value_at (fc_rains fc) i <> JNull.
Proof.
  unfold collect_body, forecast_of. destruct s as [lds w]. intros H Hfc.
  bind_ok H as data Edata. cbn [rbind] in Hfc.
  bind_ok H as hourly Eh. cbn [rbind] in Hfc.
  bind_ok H as times Et. cbn [rbind] in Hfc.
  bind_ok H as temps Ep. cbn [rbind] in Hfc.
  bind_ok H as rains Er. cbn [rbind] in Hfc.
  bind_ok H as n En. bind_ok H as s1 E. inv Hfc.
  unfold retained, entry_count. cbn [fc_times fc_rains]. rewrite En.
  intros i Hin. apply filter_In in Hin. destruct Hin as [Hin R].
  eapply hourly_loop_rain_present; eauto.
Qed.

Lemma collect_loop_rain_present today_str fetch locs : forall s s',
  for_each (collect_body today_str fetch) locs s = OK s' ->
  forall loc fc i,
    In loc locs -> forecast_of fetch loc = OK fc ->
    In i (retained today_str (fc_times fc)) ->
    value_at (fc_rains fc) i <> JNull.
Proof.
  induction locs as [ | l locs IH ]; intros s s' H loc fc i Hin Hfc Hi;
    cbn in *; [ contradiction | ].
  bind_ok H as s1 E. destruct Hin as [ <- | Hin ].
  - eapply collect_body_rain_present; eauto.
  - eapply IH; eauto.
Qed.

(** In a message [build_message] returns, every retained hour has its rain
    value: "N/A" is never written for a rain probability. *)
Lemma rain_is_never_missing locations p e msg :
  build_message_at locations p e = OK msg ->
  forall loc fc i,
    In loc locations ->
    forecast_of (fetch_weather e) loc = OK fc ->
    retained_hour (today_of e) (fc_times fc) i ->
    value_at (fc_rains fc) i <> JNull.
Proof.
  unfold build_message_at. intros H loc fc i Hin Hfc Hi.
  bind_ok H as s E.
  eapply collect_loop_rain_present; eauto.
  apply retained_In, Hi.
Qed.

(** A missing temperature is written "N/A". *)
Lemma missing_value_shown : render_value JNull = OK (u "N/A").
Proof. reflexivity. Qed.
(** * The claims on [build_message] *)

(** C3: in every message [build_message] returns, the emoji after the date
    is the rain emoji if and only if some retained hour (today's date, hour
    in [8,20]) of some configured location has a rain probability of at
    least 30, and it is the sun emoji otherwise. *)
Theorem rain_emoji_iff_rain_expected locations p e msg :
  build_message_at locations p e = OK msg ->
  exists emoji blocks,
    msg = strftime_date_line p (clock_msg_now e) ++ u " " ++ emoji
          ++ NL ++ NL ++ blocks /\
    (emoji = RAIN_EMOJI <-> rain_expected locations e) /\
    (emoji = SUN_EMOJI <-> ~ rain_expected locations e).
Proof.
  intros H. apply build_message_shape in H. destruct H as (fcs & Hfcs & ->).
  pose proof (rainy_forecasts _ _ _ Hfcs) as Hiff.
  exists (weather_emoji (existsb (rainy (today_of e)) fcs)).
  exists (List.concat (map (spec_block (today_of e)) fcs)).
  split; [ unfold header; rewrite <- !app_assoc; reflexivity | ].
  unfold RAIN_EMOJI, SUN_EMOJI.
  destruct (existsb (rainy (today_of e)) fcs); cbn [weather_emoji];
    unfold RAIN_EMOJI, SUN_EMOJI.
  - split; split.
    + intros _. apply Hiff. reflexivity.
    + reflexivity.
    + discriminate.
    + intros Hn. exfalso. apply Hn, Hiff. reflexivity.
  - split; split.
    + discriminate.
    + intros Hr. apply Hiff in Hr. discriminate.
    + intros _ Hr. apply Hiff in Hr. discriminate.
    + reflexivity.
Qed.

Lemma strftime_Ymd_fields d y m dd :
  year d = y -> month d = m -> day d = dd ->
  strftime_Ymd d = strftime_Ymd (at_time y m dd 0 0 0 0).
Proof. unfold strftime_Ymd. intros -> -> ->. reflexivity. Qed.

(** C7: with the single location "Home", the hourly response
    [{"time": ["2024-01-01T09:00"], "temperature_2m": [25],
    "precipitation_probability": [10]}] and the date 2024-01-01,
    [build_message] returns the date line, the sun emoji and a "Home:"
    block with the one line "09:00 - 25°C, 10%"; the rain emoji does not
    occur after the date line. *)
Theorem single_home_example p e home :
  name home = u "Home" ->
  year (clock_msg_today e) = 2024 ->
  month (clock_msg_today e) = 1 ->
  day (clock_msg_today e) = 1 ->
  fetch_weather e (lat home) (lon home) = OK response_0900 ->
  build_message_at [home] p e
    = OK (strftime_date_line p (clock_msg_now e) ++ body_0900) /\
  body_0900 = u " " ++ SUN_EMOJI ++ NL ++ NL
              ++ u "Home:" ++ NL
              ++ u "09:00 - 25" ++ DEGREE ++ u "C, 10%" ++ NL
              ++ NL /\
  contains body_0900 RAIN_EMOJI = false.
Proof.
  intros Hname Hy Hm Hd Hfetch. split; [ | split; reflexivity ].
  rewrite build_message_at_date_line.
  unfold build_message_at.
  rewrite (strftime_Ymd_fields _ _ _ _ Hy Hm Hd).
  cbn [for_each]. unfold collect_body. rewrite Hfetch, Hname.
  reflexivity.
Qed.

Lemma single_home_example_witness :
  name home_location = u "Home" /\
  strftime_Ymd (clock_msg_today cycle_0900) = u "2024-01-01" /\
  fetch_weather cycle_0900 (lat home_location) (lon home_location)
  = OK response_0900 /\
  build_message_at [home_location] windows_c_locale cycle_0900
  = OK (u "Monday, January 1, 2024 " ++ SUN_EMOJI ++ NL ++ NL
        ++ u "Home:" ++ NL
        ++ u "09:00 - 25" ++ DEGREE ++ u "C, 10%" ++ NL
        ++ NL).
Proof.
  do 3 (split; [ reflexivity | ]).
  exact (proj1 (single_home_example windows_c_locale cycle_0900 home_location
                  eq_refl eq_refl eq_refl eq_refl eq_refl)).
Defined.

Example build_message_wet :
  build_message sample_config windows_c_locale cycle_wet = OK message_wet.
Proof. reflexivity. Qed.

Lemma rain_emoji_iff_rain_expected_witness :
  build_message_at (LOCATIONS sample_config) windows_c_locale cycle_wet
  = OK message_wet /\
  exists emoji blocks,
    message_wet
    = strftime_date_line windows_c_locale (clock_msg_now cycle_wet) ++ u " "
      ++ emoji ++ NL ++ NL ++ blocks /\
    (emoji = RAIN_EMOJI <-> rain_expected (LOCATIONS sample_config) cycle_wet) /\
    (emoji = SUN_EMOJI <-> ~ rain_expected (LOCATIONS sample_config) cycle_wet).
Proof.
  split; [ reflexivity | ].
  exact (rain_emoji_iff_rain_expected (LOCATIONS sample_config)
           windows_c_locale cycle_wet message_wet eq_refl).
Defined.

(** C4: in every message [build_message] returns, the data lines of a
    location's block are those of the retained indices of its time array;
    an entry whose timestamp does not start with today's date, or whose hour
    is outside [8,20], is not among them, so it has no line. *)
Theorem excluded_entries_have_no_line locations p e msg :
  build_message_at locations p e = OK msg ->
  exists fcs,
    forecasts (fetch_weather e) locations fcs /\
    msg = header p e (existsb (rainy (today_of e)) fcs)
          ++ List.concat
               (map (fun fc =>
                       fc_name fc ++ u ":" ++ NL
                       ++ List.concat
                            (map (spec_line fc)
                                 (retained (today_of e) (fc_times fc)))
                       ++ NL) fcs) /\
    forall fc i t,
      In fc fcs ->
      py_getitem (fc_times fc) i = OK (JStr t) ->
      startswith t (today_of e) = false \/ hour_outside t ->
      ~ In i (retained (today_of e) (fc_times fc)).
Proof.
  intros H. apply build_message_shape in H. destruct H as (fcs & Hfcs & ->).
  exists fcs. repeat split; [ exact Hfcs | ].
  intros fc i t _ Ht Hout Hin.
  apply retained_In in Hin. destruct Hin as (t' & h & Ht' & Hs & Hh & Hr).
  rewrite Ht in Ht'. inv Ht'.
  destruct Hout as [ Hd | (h' & Hh' & Ho) ]; [ congruence | ].
  rewrite Hh in Hh'. inv Hh'. lia.
Qed.

Lemma excluded_entries_have_no_line_witness :
  build_message_at (LOCATIONS sample_config) windows_c_locale cycle_wet
  = OK message_wet /\
  exists fcs,
    forecasts (fetch_weather cycle_wet) (LOCATIONS sample_config) fcs /\
    message_wet
    = header windows_c_locale cycle_wet
        (existsb (rainy (today_of cycle_wet)) fcs)
      ++ List.concat
           (map (fun fc =>
                   fc_name fc ++ u ":" ++ NL
                   ++ List.concat
                        (map (spec_line fc)
                             (retained (today_of cycle_wet) (fc_times fc)))
                   ++ NL) fcs) /\
    forall fc i t,
      In fc fcs ->
      py_getitem (fc_times fc) i = OK (JStr t) ->
      startswith t (today_of cycle_wet) = false \/ hour_outside t ->
      ~ In i (retained (today_of cycle_wet) (fc_times fc)).
Proof.
  split; [ reflexivity | ].
  exact (excluded_entries_have_no_line (LOCATIONS sample_config)
           windows_c_locale cycle_wet message_wet eq_refl).
Defined.

(** C10: every message [build_message] returns is the date line, a space,
    the rain or the sun emoji and a blank line, then the block of Work and
    the block of Home in this order; a block is the name with a colon, one
    line per retained hour in the increasing order of the indices of the
    time array, and a blank line. *)
Theorem message_structure c p e msg :
  build_message c p e = OK msg ->
  exists work home emoji,
    forecast_of (fetch_weather e) (work_of c) = OK work /\
    forecast_of (fetch_weather e) (home_of c) = OK home /\
    (emoji = RAIN_EMOJI \/ emoji = SUN_EMOJI) /\
    msg = strftime_date_line p (clock_msg_now e) ++ u " " ++ emoji ++ NL ++ NL
          ++ (u "Work:" ++ NL
              ++ List.concat (map (spec_line work)
                                  (retained (today_of e) (fc_times work)))
              ++ NL)
          ++ (u "Home:" ++ NL
              ++ List.concat (map (spec_line home)
                                  (retained (today_of e) (fc_times home)))
              ++ NL) /\
    increasing (retained (today_of e) (fc_times work)) /\
    increasing (retained (today_of e) (fc_times home)).
Proof.
  unfold build_message, LOCATIONS. intros H.
  apply build_message_shape in H. destruct H as (fcs & Hfcs & ->).
  inversion Hfcs as [ | l1 work ls1 fcs1 Hwork Hrest ]; subst.
  inversion Hrest as [ | l2 home ls2 fcs2 Hhome Hnil ]; subst.
  inversion Hnil; subst.
  exists work, home, (weather_emoji (existsb (rainy (today_of e)) [work; home])).
  assert (Nw : fc_name work = u "Work").
  { unfold forecast_of in Hwork.
    bind_ok Hwork as a1 E1. bind_ok Hwork as a2 E2. bind_ok Hwork as a3 E3.
    bind_ok Hwork as a4 E4. bind_ok Hwork as a5 E5. inv Hwork. reflexivity. }
  assert (Nh : fc_name home = u "Home").
  { unfold forecast_of in Hhome.
    bind_ok Hhome as a1 E1. bind_ok Hhome as a2 E2. bind_ok Hhome as a3 E3.
    bind_ok Hhome as a4 E4. bind_ok Hhome as a5 E5. inv Hhome. reflexivity. }
  split; [ exact Hwork | ]. split; [ exact Hhome | ].
  split; [ destruct (existsb _ _); cbn; auto | ].
  split; [ | split; apply retained_increasing ].
  unfold header, spec_block, spec_lines. cbn [map List.concat].
  rewrite Nw, Nh, app_nil_r, <- !app_assoc. reflexivity.
Qed.

Lemma message_structure_witness :
  build_message sample_config windows_c_locale cycle_wet = OK message_wet /\
  exists work home emoji,
    forecast_of (fetch_weather cycle_wet) (work_of sample_config) = OK work /\
    forecast_of (fetch_weather cycle_wet) (home_of sample_config) = OK home /\
    (emoji = RAIN_EMOJI \/ emoji = SUN_EMOJI) /\
    message_wet
    = strftime_date_line windows_c_locale (clock_msg_now cycle_wet) ++ u " "
      ++ emoji ++ NL ++ NL
      ++ (u "Work:" ++ NL
          ++ List.concat (map (spec_line work)
                              (retained (today_of cycle_wet) (fc_times work)))
          ++ NL)
      ++ (u "Home:" ++ NL
          ++ List.concat (map (spec_line home)
                              (retained (today_of cycle_wet) (fc_times home)))
          ++ NL) /\
    increasing (retained (today_of cycle_wet) (fc_times work)) /\
    increasing (retained (today_of cycle_wet) (fc_times home)).
Proof.
  split; [ reflexivity | ].
  exact (message_structure sample_config windows_c_locale cycle_wet
           message_wet eq_refl).
Defined.

(** C9: in every message [build_message] returns, a temperature or a rain
    probability of a retained hour that is a number is written as the
    decimal text of [round] of it: the nearest integer, the even one on a
    tie, and not the raw value; 25.6 is written 26. *)
Theorem numbers_are_rounded locations p e msg :
  build_message_at locations p e = OK msg ->
  (exists fcs,
     forecasts (fetch_weather e) locations fcs /\
     msg = header p e (existsb (rainy (today_of e)) fcs)
           ++ List.concat (map (spec_block (today_of e)) fcs) /\
     forall fc i,
       In fc fcs ->
       In i (retained (today_of e) (fc_times fc)) ->
       spec_line fc i
       = slice 11 16 (time_at (fc_times fc) i) ++ u " - "
         ++ shown (value_at (fc_temps fc) i) ++ DEGREE ++ u "C, "
         ++ shown (value_at (fc_rains fc) i) ++ u "%" ++ NL /\
       forall v q,
         v = value_at (fc_temps fc) i \/ v = value_at (fc_rains fc) i ->
         number v q ->
         render_value v = OK (str_of_int (round_half_even q)) /\
         shown v = str_of_int (round_half_even q) /\
         nearest_even q (round_half_even q)) /\
  render_value (JFloat (Finite (256 # 10))) = OK (u "26").
Proof.
  intros H. split; [ | reflexivity ].
  apply build_message_shape in H. destruct H as (fcs & Hfcs & ->).
  exists fcs. split; [ exact Hfcs | ]. split; [ reflexivity | ].
  intros fc i _ _. split; [ reflexivity | ].
  intros v q _ Hnum. split; [ | split ].
  - apply render_value_number, Hnum.
  - apply render_value_shown, render_value_number, Hnum.
  - apply round_half_even_nearest.
Qed.

Lemma numbers_are_rounded_witness :
  build_message_at (LOCATIONS sample_config) windows_c_locale cycle_wet
  = OK message_wet /\
  value_at (fc_temps (forecast_wet (u "Work"))) 1
  = JFloat (Finite (256 # 10)) /\
  shown (JFloat (Finite (256 # 10))) = u "26".
Proof.
  split; [ reflexivity | ]. split; [ reflexivity | ].
  destruct (numbers_are_rounded (LOCATIONS sample_config) windows_c_locale
              cycle_wet message_wet eq_refl) as [(fcs & Hfcs & _ & Hline) _].
  inversion Hfcs as [ | l1 work ls1 fcs1 Hwork Hrest ]; subst.
  injection Hwork as <-.
  destruct (Hline (forecast_wet (u "Work")) 1%nat (or_introl eq_refl)
              (or_introl eq_refl)) as [_ Hv].
  destruct (Hv (JFloat (Finite (256 # 10))) (256 # 10)%Q (or_introl eq_refl)
              (number_float _)) as (_ & Hs & _).
  exact Hs.
Defined.

(** C8: a location whose response has no hourly data (no "hourly" object,
    no "time" array in it, or an empty one) never makes [build_message]
    fail, and its block is its name with a colon and no data line: the
    message is the one of the other locations with this block in the
    location's place, and [build_message] fails only where it fails without
    the location. *)
Theorem no_hourly_data_block pre loc post p e data :
  fetch_weather e (lat loc) (lon loc) = OK data ->
  no_hourly_data data ->
  match build_message_at (pre ++ post) p e with
  | Raise x => build_message_at (pre ++ loc :: post) p e = Raise x
  | OK _ =>
      exists fpre fpost,
        forecasts (fetch_weather e) pre fpre /\
        forecasts (fetch_weather e) post fpost /\
        build_message_at (pre ++ loc :: post) p e
        = OK (header p e (existsb (rainy (today_of e)) (fpre ++ fpost))
              ++ List.concat (map (spec_block (today_of e)) fpre)
              ++ empty_block (name loc)
              ++ List.concat (map (spec_block (today_of e)) fpost))
  end.
Proof.
  intros Hfetch Hno. unfold build_message_at, header, today_of.
  set (today := strftime_Ymd (clock_msg_today e)).
  set (now := strftime_date_line p (clock_msg_now e)).
  rewrite !for_each_app. cbn [for_each].
  destruct (for_each _ pre ([], false)) as [ [l1 w1] | ] eqn:Epre;
    cbn [rbind]; [ | reflexivity ].
  rewrite (collect_body_no_hourly _ _ _ _ _ _ Hfetch Hno). cbn [rbind].
  rewrite (collect_frame _ _ post (l1 ++ _) w1), (collect_frame _ _ post l1 w1).
  destruct (for_each _ post ([], w1)) as [ [l2 w2] | ] eqn:Epost;
    [ | reflexivity ].
  apply collect_loop in Epre, Epost.
  destruct Epre as (fpre & Hpre & -> & ->).
  destruct Epost as (fpost & Hpost & -> & ->).
  cbn [app orb]. rewrite <- existsb_app. cbn [rbind].
  set (hdr := now ++ u " " ++ weather_emoji _ ++ NL ++ NL).
  rewrite <- app_assoc. rewrite !for_each_app. cbn [for_each app].
  rewrite (blocks_frame _ hdr).
  destruct (for_each block_body (map _ fpre) []) as [ m1 | ] eqn:E1;
    cbn [rbind framed]; [ | reflexivity ].
  rewrite block_body_empty. cbn [rbind].
  rewrite (blocks_frame _ (hdr ++ m1)), (blocks_frame _ ((hdr ++ m1) ++ _)).
  destruct (for_each block_body (map _ fpost) []) as [ m2 | ] eqn:E2;
    cbn [framed]; [ | reflexivity ].
  apply blocks_loop in E1, E2. cbn [app] in E1, E2. subst m1 m2.
  exists fpre, fpost. repeat split; auto.
  unfold hdr. rewrite <- !app_assoc. reflexivity.
Qed.

Lemma no_hourly_data_block_witness :
  fetch_weather cycle_work_only (lat (home_of sample_config))
    (lon (home_of sample_config)) = OK (JDict []) /\
  no_hourly_data (JDict []) /\
  exists fpre fpost,
    forecasts (fetch_weather cycle_work_only) [work_of sample_config] fpre /\
    forecasts (fetch_weather cycle_work_only) [] fpost /\
    build_message_at ([work_of sample_config] ++ home_of sample_config :: [])
      windows_c_locale cycle_work_only
    = OK (header windows_c_locale cycle_work_only
            (existsb (rainy (today_of cycle_work_only)) (fpre ++ fpost))
          ++ List.concat (map (spec_block (today_of cycle_work_only)) fpre)
          ++ empty_block (name (home_of sample_config))
          ++ List.concat (map (spec_block (today_of cycle_work_only)) fpost)).
Proof.
  assert (Hno : no_hourly_data (JDict []))
    by (exists []; split; [ reflexivity | exact I ]).
  split; [ reflexivity | ]. split; [ exact Hno | ].
  exact (no_hourly_data_block [work_of sample_config] (home_of sample_config)
           [] windows_c_locale cycle_work_only (JDict []) eq_refl Hno).
Defined.

Example build_message_work_only :
  build_message sample_config windows_c_locale cycle_work_only
  = OK message_work_only.
Proof. reflexivity. Qed.

(** C2: the specification asks for "N/A" and no failure where a retained
    hour lacks its rain probability, but the comparison with the threshold
    reads [rains[i]] unguarded.  With the rain probability null
    [build_message] raises [TypeError], with the rain array too short it
    raises [IndexError]; a missing temperature is rendered "N/A". *)
Theorem missing_rain_raises :
  build_message_at [home_location] windows_c_locale
    (cycle_on response_null_rain) = Raise TypeError /\
  build_message_at [home_location] windows_c_locale
    (cycle_on response_short_rain) = Raise IndexError /\
  build_message_at [home_location] windows_c_locale
    (cycle_on response_null_temp) = OK message_no_temp /\
  build_message_at [home_location] windows_c_locale
    (cycle_on response_short_temp) = OK message_no_temp.
Proof. repeat split. Qed.

(** * The claims on the scheduler *)

(** C5: for every reading [now_ph] of the Manila clock (before the last
    day of year 9999, after 06:00 of which no next day exists), the target
    the scheduler computes is at exactly 06:00:00 Manila time and strictly
    later than [now_ph]; it is today's 06:00 when that is still ahead and
    the next day's 06:00 otherwise. *)
Theorem next_target_strictly_future_six now_ph :
  valid_datetime now_ph = true ->
  ~ last_day now_ph ->
  exists target,
    next_target now_ph = OK target /\
    hour target = 6 /\ minute target = 0 /\ second target = 0 /\
    microsecond target = 0 /\
    valid_datetime target = true /\
    dt_lt now_ph target = true /\
    to_microseconds now_ph < to_microseconds target /\
    (hour now_ph < 6 -> toordinal target = toordinal now_ph) /\
    (6 <= hour now_ph -> toordinal target = toordinal now_ph + 1).
Proof.
  intros V NL. destruct (next_target_good _ V NL) as (target & Ht & G).
  destruct G as ((Vt & H6 & M0 & S0 & U0) & Hlt & Hus & Hsame & Hnext).
  exists target. repeat split; auto; lia.
Qed.

(** C6: when the delivery of the built message raises an [Exception], the
    iteration logs the failure, sleeps the fixed ten seconds (10 000 000
    microseconds) and ends normally, so [main] goes on with the next
    iteration; that iteration starts by computing and logging its target,
    which is again at 06:00 and strictly later than its clock reading, on
    the next day when the reading is at or after 06:00. *)
Theorem delivery_failure_keeps_loop c p e rest target_ph msg x :
  next_target (clock_main_ph e) = OK target_ph ->
  build_message c p e = OK msg ->
  send_message e (CHAT_ID c) msg = Raise x ->
  is_Exception x = true ->
  main_iteration c p e
  = (iteration_prefix e target_ph
       ++ [Send (CHAT_ID c) msg; Print (LogFailed x); Sleep 10000000],
     OK tt) /\
  main c p (e :: rest)
  = ((iteration_prefix e target_ph
        ++ [Send (CHAT_ID c) msg; Print (LogFailed x); Sleep 10000000])
       ++ fst (main c p rest),
     snd (main c p rest)) /\
  0 < RETRY_PAUSE /\
  forall e' rest',
    rest = e' :: rest' ->
    valid_datetime (clock_main_ph e') = true ->
    ~ last_day (clock_main_ph e') ->
    exists target' t,
      next_target (clock_main_ph e') = OK target' /\
      good_target (clock_main_ph e') target' /\
      fst (main c p rest)
      = Print (LogCurrent (clock_main_ph e'))
          :: Print (LogSchedule target'
                      (delay_of target' (clock_main_utc e'))) :: t.
Proof.
  intros Ht Hb Hs Hx.
  pose proof (main_iteration_message _ _ _ _ _ Ht Hb) as Hit.
  rewrite Hs, Hx in Hit.
  split; [ exact Hit | ]. split; [ | split; [ reflexivity | ] ].
  - cbn [main]. rewrite Hit. destruct (main c p rest). reflexivity.
  - intros e' rest' -> V NL.
    destruct (next_target_good _ V NL) as (target' & Ht' & G).
    destruct (main_starts c p e' rest' _ Ht') as (t & Hstart).
    exists target', t. auto.
Qed.

(** C1, as the program has it: a network or parse failure of a location's
    fetch is not caught in the loop.  It makes [build_message] raise, and
    the exception leaves [main] after the two log lines and the sleep of
    the iteration: nothing is sent and no further cycle is run. *)
Theorem fetch_error_ends_main c p e rest target_ph pre loc post s x :
  next_target (clock_main_ph e) = OK target_ph ->
  LOCATIONS c = pre ++ loc :: post ->
  for_each (collect_body (today_of e) (fetch_weather e)) pre ([], false)
  = OK s ->
  fetch_weather e (lat loc) (lon loc) = Raise x ->
  is_FetchError x = true ->
  build_message c p e = Raise x /\
  main c p (e :: rest) = (iteration_prefix e target_ph, Crashed x).
Proof.
  intros Ht Hl Hpre Hfetch Hx.
  assert (Hb : build_message c p e = Raise x)
    by (eapply build_message_fetch_raises; eauto).
  split; [ exact Hb | ].
  cbn [main]. rewrite (main_iteration_no_message _ _ _ _ _ Ht Hb).
  destruct x; try discriminate; reflexivity.
Qed.

Lemma next_target_strictly_future_six_witness :
  valid_datetime evening_before = true /\
  ~ last_day evening_before /\
  exists target,
    next_target evening_before = OK target /\
    hour target = 6 /\ minute target = 0 /\ second target = 0 /\
    microsecond target = 0 /\
    valid_datetime target = true /\
    dt_lt evening_before target = true /\
    to_microseconds evening_before < to_microseconds target /\
    (hour evening_before < 6 -> toordinal target = toordinal evening_before) /\
    (6 <= hour evening_before ->
     toordinal target = toordinal evening_before + 1).
Proof.
  assert (NL : ~ last_day evening_before)
    by (unfold last_day; cbn; intros (H & _); discriminate H).
  split; [ reflexivity | ]. split; [ exact NL | ].
  exact (next_target_strictly_future_six evening_before eq_refl NL).
Defined.

Lemma delivery_failure_keeps_loop_witness :
  next_target (clock_main_ph cycle_undelivered) = OK six_20240101 /\
  build_message sample_config windows_c_locale cycle_undelivered
  = OK message_0900_both /\
  send_message cycle_undelivered (CHAT_ID sample_config) message_0900_both
  = Raise TelegramError /\
  is_Exception TelegramError = true /\
  main_iteration sample_config windows_c_locale cycle_undelivered
  = (iteration_prefix cycle_undelivered six_20240101
       ++ [Send (CHAT_ID sample_config) message_0900_both;
           Print (LogFailed TelegramError); Sleep 10000000],
     OK tt) /\
  snd (main sample_config windows_c_locale [cycle_undelivered; cycle_after])
  = Running.
Proof.
  destruct (delivery_failure_keeps_loop sample_config windows_c_locale
              cycle_undelivered [cycle_after] six_20240101 message_0900_both
              TelegramError eq_refl eq_refl eq_refl eq_refl)
    as (Hit & Hmain & _ & _).
  do 4 (split; [ reflexivity | ]).
  split; [ exact Hit | ].
  rewrite Hmain. reflexivity.
Defined.

Lemma fetch_error_ends_main_witness :
  next_target (clock_main_ph cycle_offline) = OK six_20240101 /\
  fetch_weather cycle_offline (lat (work_of sample_config))
    (lon (work_of sample_config)) = Raise RequestException /\
  is_FetchError RequestException = true /\
  build_message sample_config windows_c_locale cycle_offline
  = Raise RequestException /\
  main sample_config windows_c_locale [cycle_offline; cycle_after]
  = (iteration_prefix cycle_offline six_20240101, Crashed RequestException).
Proof.
  do 3 (split; [ reflexivity | ]).
  exact (fetch_error_ends_main sample_config windows_c_locale cycle_offline
           [cycle_after] six_20240101 [] (work_of sample_config)
           [home_of sample_config] ([], false) RequestException
           eq_refl eq_refl eq_refl eq_refl eq_refl).
Defined.

(** C1 as stated fails: with the network down on the morning of
    2024-01-01 the fetch for Work raises a FetchError, and the cycle is not
    skipped: the exception leaves [main], although a further cycle was
    available. *)
Lemma fetch_error_is_not_skipped :
  fetch_weather cycle_offline (lat (work_of sample_config))
    (lon (work_of sample_config)) = Raise RequestException /\
  is_FetchError RequestException = true /\
  ~ cycle_skipped sample_config windows_c_locale cycle_offline [cycle_after] /\
  main sample_config windows_c_locale [cycle_offline; cycle_after]
  = ([ Print (LogCurrent evening_before);
       Print (LogSchedule six_20240101 30599999880);
       Sleep 30599999880 ],
     Crashed RequestException).
Proof.
  do 2 (split; [ reflexivity | ]).
  split; [ | reflexivity ].
  intros (t & Hit & _). discriminate Hit.
Qed.

(** * Further properties of the scheduler *)

Lemma to_microseconds_at_six d :
  hour d = 6 -> minute d = 0 -> second d = 0 -> microsecond d = 0 ->
  to_microseconds d = (toordinal d * 24 + 6) * 3600 * 1000000.
Proof. unfold to_microseconds. intros -> -> -> ->. lia. Qed.

(** The target is at most one day ahead of the clock reading it is computed
    from. *)
Lemma next_target_within_a_day now_ph target :
  valid_datetime now_ph = true ->
  next_target now_ph = OK target ->
  good_target now_ph target ->
  0 < to_microseconds target - to_microseconds now_ph <= DAY.
Proof.
  intros V Ht ((Vt & H6 & M0 & S0 & U0) & _ & Hlt & Hsame & Hnext).
  apply valid_datetime_fields in V.
  destruct V as (_ & _ & _ & Vh & Vmi & Vs & Vus).
  rewrite (to_microseconds_at_six _ H6 M0 S0 U0) in *.
  unfold to_microseconds, DAY in *.
  destruct (Z.lt_ge_cases (hour now_ph) 6) as [ L | G ].
  - rewrite (Hsame L) in *. lia.
  - rewrite (Hnext G) in *. lia.
Qed.

(** X1: computed at a target itself (06:00:00 sharp), the next target is
    the 06:00 of the following day, exactly 24 hours later: [>=] rolls the
    day at the very instant of the target. *)
Theorem target_after_target now_ph :
  at_six now_ph ->
  ~ last_day now_ph ->
  exists target,
    next_target now_ph = OK target /\
    at_six target /\
    toordinal target = toordinal now_ph + 1 /\
    to_microseconds target = to_microseconds now_ph + DAY.
Proof.
  intros (V & H6 & M0 & S0 & U0) NL.
  destruct (next_target_good _ V NL) as (target & Ht & G).
  pose proof G as (A & _ & _ & _ & Hnext).
  assert (Ho : toordinal target = toordinal now_ph + 1) by (apply Hnext; lia).
  exists target. repeat split; try apply A; auto.
  destruct A as (_ & T6 & TM & TS & TU).
  rewrite (to_microseconds_at_six _ T6 TM TS TU).
  rewrite (to_microseconds_at_six _ H6 M0 S0 U0).
  rewrite Ho. unfold DAY. lia.
Qed.

Lemma six_is_not_the_last_day : ~ last_day six_20240101.
Proof. unfold last_day. cbn. intros (H & _). discriminate H. Qed.

Lemma target_after_target_witness :
  at_six six_20240101 /\
  ~ last_day six_20240101 /\
  exists target,
    next_target six_20240101 = OK target /\
    at_six target /\
    toordinal target = toordinal six_20240101 + 1 /\
    to_microseconds target = to_microseconds six_20240101 + DAY.
Proof.
  assert (A : at_six six_20240101) by (repeat split).
  split; [ exact A | ]. split; [ exact six_is_not_the_last_day | ].
  exact (target_after_target six_20240101 A six_is_not_the_last_day).
Defined.

(** X2: the target is never more than 24 hours ahead of the clock reading,
    and never at or before it. *)
Theorem target_within_a_day now_ph :
  valid_datetime now_ph = true ->
  ~ last_day now_ph ->
  exists target,
    next_target now_ph = OK target /\
    0 < to_microseconds target - to_microseconds now_ph <= DAY.
Proof.
  intros V NL. destruct (next_target_good _ V NL) as (target & Ht & G).
  exists target. split; [ exact Ht | ].
  eapply next_target_within_a_day; eauto.
Qed.

Lemma evening_is_not_the_last_day : ~ last_day evening_before.
Proof. unfold last_day. cbn. intros (H & _). discriminate H. Qed.

Lemma target_within_a_day_witness :
  valid_datetime evening_before = true /\
  ~ last_day evening_before /\
  exists target,
    next_target evening_before = OK target /\
    0 < to_microseconds target - to_microseconds evening_before <= DAY.
Proof.
  split; [ reflexivity | ]. split; [ exact evening_is_not_the_last_day | ].
  exact (target_within_a_day evening_before eq_refl
           evening_is_not_the_last_day).
Defined.

(** X3: when the UTC reading of an iteration is the Manila reading taken
    [lag] microseconds later, and the target is further away than [lag],
    the iteration logs its two lines and sleeps exactly once before it
    builds the message, for a positive time of at most 24 hours that ends
    exactly at the target.  The trace of the iteration is given in full:
    nothing else precedes the delivery, and the only other sleep is the ten
    seconds after a failed delivery. *)
Theorem sleep_until_target c p e target lag :
  valid_datetime (clock_main_ph e) = true ->
  ~ last_day (clock_main_ph e) ->
  next_target (clock_main_ph e) = OK target ->
  0 <= lag ->
  to_microseconds (clock_main_utc e) + PH_TZ_utcoffset
  = to_microseconds (clock_main_ph e) + lag ->
  lag < to_microseconds target - to_microseconds (clock_main_ph e) ->
  exists d,
    0 < d <= DAY /\
    to_microseconds (clock_main_utc e) + PH_TZ_utcoffset + d
    = to_microseconds target /\
    main_iteration c p e
    = match build_message c p e with
      | Raise x =>
          ([ Print (LogCurrent (clock_main_ph e));
             Print (LogSchedule target d); Sleep d ], Raise x)
      | OK msg =>
          match send_message e (CHAT_ID c) msg with
          | OK _ =>
              ([ Print (LogCurrent (clock_main_ph e));
                 Print (LogSchedule target d); Sleep d;
                 Send (CHAT_ID c) msg; Print LogSent ], OK tt)
          | Raise x =>
              if is_Exception x
              then ([ Print (LogCurrent (clock_main_ph e));
                      Print (LogSchedule target d); Sleep d;
                      Send (CHAT_ID c) msg; Print (LogFailed x);
                      Sleep 10000000 ], OK tt)
              else ([ Print (LogCurrent (clock_main_ph e));
                      Print (LogSchedule target d); Sleep d;
                      Send (CHAT_ID c) msg ], Raise x)
          end
      end.
Proof.
  intros V NL Ht Hlag Hutc Hfar.
  destruct (next_target_good _ V NL) as (target' & Ht' & G).
  rewrite Ht in Ht'. inv Ht'.
  pose proof (next_target_within_a_day _ _ V Ht G) as Hday.
  set (d := delay_of target' (clock_main_utc e)).
  assert (Hd : d = to_microseconds target'
                   - to_microseconds (clock_main_ph e) - lag)
    by (unfold d, delay_of; lia).
  assert (Hpos : (0 <? d) = true) by (apply Z.ltb_lt; lia).
  assert (Hpre : iteration_prefix e target'
                 = [ Print (LogCurrent (clock_main_ph e));
                     Print (LogSchedule target' d); Sleep d ]).
  { unfold iteration_prefix. fold d. rewrite Hpos. reflexivity. }
  exists d. split; [ lia | ]. split; [ lia | ].
  destruct (build_message c p e) as [ msg | x ] eqn:Hb.
  - rewrite (main_iteration_message _ _ _ _ _ Ht Hb), Hpre.
    destruct (send_message e (CHAT_ID c) msg) as [ [] | x ];
      [ | destruct (is_Exception x) ]; reflexivity.
  - rewrite (main_iteration_no_message _ _ _ _ _ Ht Hb), Hpre. reflexivity.
Qed.

Lemma sleep_until_target_witness :
  valid_datetime (clock_main_ph cycle_0900) = true /\
  ~ last_day (clock_main_ph cycle_0900) /\
  next_target (clock_main_ph cycle_0900) = OK six_20240101 /\
  to_microseconds (clock_main_utc cycle_0900) + PH_TZ_utcoffset
  = to_microseconds (clock_main_ph cycle_0900) + 120 /\
  exists d,
    0 < d <= DAY /\
    to_microseconds (clock_main_utc cycle_0900) + PH_TZ_utcoffset + d
    = to_microseconds six_20240101 /\
    main_iteration sample_config windows_c_locale cycle_0900
    = ([ Print (LogCurrent (clock_main_ph cycle_0900));
         Print (LogSchedule six_20240101 d); Sleep d;
         Send (CHAT_ID sample_config) message_0900_both; Print LogSent ],
       OK tt).
Proof.
  split; [ reflexivity | ]. split; [ exact evening_is_not_the_last_day | ].
  split; [ reflexivity | ]. split; [ reflexivity | ].
  apply (sleep_until_target sample_config windows_c_locale cycle_0900
           six_20240101 120 eq_refl evening_is_not_the_last_day eq_refl).
  - discriminate.
  - reflexivity.
  - reflexivity.
Defined.

(** * Further properties of the loop *)

Lemma positive_prefix e target :
  Forall positive_sleep (iteration_prefix e target).
Proof.
  unfold iteration_prefix.
  destruct (0 <? delay_of target (clock_main_utc e)) eqn:D;
    repeat constructor.
  apply Z.ltb_lt, D.
Qed.

Lemma positive_pause : positive_sleep (Sleep RETRY_PAUSE).
Proof. reflexivity. Qed.

(** The outcomes of an iteration, by what the environment answers. *)
Lemma main_iteration_cases c p e :
  (exists x, next_target (clock_main_ph e) = Raise x /\
             main_iteration c p e = ([], Raise x)) \/
  (exists target x,
     next_target (clock_main_ph e) = OK target /\
     build_message c p e = Raise x /\
     main_iteration c p e = (iteration_prefix e target, Raise x)) \/
  (exists target msg tail r,
     next_target (clock_main_ph e) = OK target /\
     build_message c p e = OK msg /\
     main_iteration c p e
     = (iteration_prefix e target ++ Send (CHAT_ID c) msg :: tail, r) /\
     (tail = [Print LogSent] \/
      tail = [] \/
      exists x, tail = [Print (LogFailed x); Sleep RETRY_PAUSE])).
Proof.
  destruct (next_target (clock_main_ph e)) as [ target | x ] eqn:Ht.
  - right. destruct (build_message c p e) as [ msg | x ] eqn:Hb.
    + right. exists target, msg.
      rewrite (main_iteration_message _ _ _ _ _ Ht Hb).
      destruct (send_message e (CHAT_ID c) msg) as [ [] | x ];
        [ | destruct (is_Exception x) ];
        eexists; eexists; (split; [ reflexivity | ]);
        (split; [ reflexivity | ]); (split; [ reflexivity | ]); eauto.
    + left. exists target, x.
      rewrite (main_iteration_no_message _ _ _ _ _ Ht Hb). auto.
  - left. exists x. split; [ reflexivity | ].
    unfold main_iteration. rewrite Ht. reflexivity.
Qed.

Lemma main_iteration_positive c p e :
  Forall positive_sleep (fst (main_iteration c p e)).
Proof.
  destruct (main_iteration_cases c p e)
    as [ (x & _ & ->)
       | [ (target & x & _ & _ & ->)
         | (target & msg & tail & r & _ & _ & -> & Htail) ] ]; cbn [fst].
  - constructor.
  - apply positive_prefix.
  - apply Forall_app. split; [ apply positive_prefix | ].
    constructor; [ exact I | ].
    destruct Htail as [ -> | [ -> | (x & ->) ] ]; repeat constructor.
Qed.

(** The trace and the status of [main] after one more cycle. *)
Lemma main_cons c p e rest :
  main c p (e :: rest)
  = match snd (main_iteration c p e) with
    | OK _ => (fst (main_iteration c p e) ++ fst (main c p rest),
               snd (main c p rest))
    | Raise KeyboardInterrupt =>
        (fst (main_iteration c p e) ++ [Print LogStopped], Returned)
    | Raise x => (fst (main_iteration c p e), Crashed x)
    end.
Proof.
  cbn [main]. destruct (main_iteration c p e) as [t [ [] | x ]]; cbn [fst snd].
  - destruct (main c p rest). reflexivity.
  - destruct x; reflexivity.
Qed.

(** X4: [main] never sleeps for a time that is zero or negative: the wait
    for the target is skipped when the delay is not positive, and the pause
    after a failed delivery is ten seconds. *)
Theorem sleeps_are_positive c p cycles :
  Forall positive_sleep (fst (main c p cycles)).
Proof.
  induction cycles as [ | e rest IH ]; [ constructor | ].
  rewrite main_cons. pose proof (main_iteration_positive c p e) as Hit.
  destruct (snd (main_iteration c p e)) as [ [] | x ]; cbn [fst].
  - apply Forall_app. split; assumption.
  - destruct x; cbn [fst]; try exact Hit.
    apply Forall_app. split; [ exact Hit | repeat constructor ].
Qed.

Lemma count_sends_app t t' :
  count_sends (t ++ t') = (count_sends t + count_sends t')%nat.
Proof. unfold count_sends. rewrite filter_app, length_app. reflexivity. Qed.

Lemma count_sends_prefix e target :
  count_sends (iteration_prefix e target) = 0%nat.
Proof.
  unfold iteration_prefix.
  destruct (0 <? delay_of target (clock_main_utc e)); reflexivity.
Qed.

Lemma main_iteration_sends c p e :
  (count_sends (fst (main_iteration c p e)) <= 1)%nat.
Proof.
  destruct (main_iteration_cases c p e)
    as [ (x & _ & ->)
       | [ (target & x & _ & _ & ->)
         | (target & msg & tail & r & _ & _ & -> & Htail) ] ]; cbn [fst].
  - cbn. lia.
  - rewrite count_sends_prefix. lia.
  - rewrite count_sends_app, count_sends_prefix.
    destruct Htail as [ -> | [ -> | (x & ->) ] ]; cbn; lia.
Qed.

(** X5: [main] attempts at most one delivery per cycle: a failed delivery
    is not tried again before the next day's cycle. *)
Theorem one_send_per_cycle c p cycles :
  (count_sends (fst (main c p cycles)) <= List.length cycles)%nat.
Proof.
  induction cycles as [ | e rest IH ]; [ cbn; lia | ].
  rewrite main_cons. pose proof (main_iteration_sends c p e) as Hit.
  cbn [List.length].
  destruct (snd (main_iteration c p e)) as [ [] | x ]; cbn [fst].
  - rewrite count_sends_app. lia.
  - destruct x; cbn [fst]; try lia.
    rewrite count_sends_app.
    change (count_sends [Print LogStopped]) with 0%nat. lia.
Qed.

Lemma main_iteration_send_origin c p e chat text :
  In (Send chat text) (fst (main_iteration c p e)) ->
  chat = CHAT_ID c /\ build_message c p e = OK text.
Proof.
  destruct (main_iteration_cases c p e)
    as [ (x & _ & ->)
       | [ (target & x & _ & _ & ->)
         | (target & msg & tail & r & _ & Hb & -> & Htail) ] ]; cbn [fst].
  - contradiction.
  - unfold iteration_prefix.
    destruct (0 <? _); cbn; intros H; repeat destruct H as [ H | H ];
      try discriminate; contradiction.
  - intros H. apply in_app_or in H. destruct H as [ H | [ H | H ] ].
    + unfold iteration_prefix in H.
      destruct (0 <? _); cbn in H; repeat destruct H as [ H | H ];
        try discriminate; contradiction.
    + inv H. auto.
    + destruct Htail as [ -> | [ -> | (x & ->) ] ]; cbn in H;
        repeat destruct H as [ H | H ]; try discriminate; contradiction.
Qed.

(** X6: whatever [main] sends goes to the configured chat and is the
    message [build_message] returned in one of the cycles; nothing is sent
    in a cycle whose message could not be built. *)
Theorem sends_are_built_messages c p cycles chat text :
  In (Send chat text) (fst (main c p cycles)) ->
  chat = CHAT_ID c /\
  exists e, In e cycles /\ build_message c p e = OK text.
Proof.
  induction cycles as [ | e rest IH ]; [ contradiction | ].
  rewrite main_cons.
  assert (Here : In (Send chat text) (fst (main_iteration c p e)) ->
                 chat = CHAT_ID c /\
                 exists e', In e' (e :: rest) /\ build_message c p e' = OK text).
  { intros H. apply main_iteration_send_origin in H. destruct H as [Hc Hb].
    split; [ exact Hc | ]. exists e. split; [ left; reflexivity | exact Hb ]. }
  destruct (snd (main_iteration c p e)) as [ [] | x ]; cbn [fst].
  - intros H. apply in_app_or in H. destruct H as [ H | H ]; [ auto | ].
    destruct (IH H) as (Hc & e' & Hin & Hb).
    split; [ exact Hc | ]. exists e'. split; [ right; exact Hin | exact Hb ].
  - destruct x; cbn [fst]; auto.
    intros H. apply in_app_or in H. destruct H as [ H | [ H | [] ] ]; auto.
    discriminate H.
Qed.

Lemma sends_are_built_messages_witness :
  In (Send (CHAT_ID sample_config) message_0900_both)
     (fst (main sample_config windows_c_locale [cycle_undelivered])) /\
  exists e,
    In e [cycle_undelivered] /\
    build_message sample_config windows_c_locale e = OK message_0900_both.
Proof.
  assert (H : In (Send (CHAT_ID sample_config) message_0900_both)
                 (fst (main sample_config windows_c_locale
                         [cycle_undelivered])))
    by (cbn; auto 10).
  split; [ exact H | ].
  exact (proj2 (sends_are_built_messages sample_config windows_c_locale
                  [cycle_undelivered] _ _ H)).
Defined.

Lemma main_iteration_good c p e :
  good_cycle c p e ->
  snd (main_iteration c p e) = OK tt /\
  count_sends (fst (main_iteration c p e)) = 1%nat.
Proof.
  intros (target & msg & Ht & Hb & Hs).
  rewrite (main_iteration_message _ _ _ _ _ Ht Hb), Hs. cbn [fst snd].
  split; [ reflexivity | ].
  rewrite count_sends_app, count_sends_prefix. reflexivity.
Qed.

(** X7: as long as every cycle computes its target, builds its message and
    delivers it, [main] does not stop, and it has attempted exactly one
    delivery per cycle. *)
Theorem good_cycles_keep_running c p cycles :
  Forall (good_cycle c p) cycles ->
  snd (main c p cycles) = Running /\
  count_sends (fst (main c p cycles)) = List.length cycles.
Proof.
  induction 1 as [ | e rest He _ IH ]; [ split; reflexivity | ].
  destruct IH as [IHs IHn].
  destruct (main_iteration_good _ _ _ He) as [Hs Hn].
  rewrite main_cons, Hs. cbn [fst snd List.length].
  rewrite count_sends_app, Hn, IHn. auto.
Qed.

Lemma good_cycle_0900 : good_cycle sample_config windows_c_locale cycle_0900.
Proof.
  exists six_20240101, message_0900_both. repeat split.
Qed.

Lemma good_cycle_after : good_cycle sample_config windows_c_locale cycle_after.
Proof.
  exists six_20240102, message_quiet. repeat split.
Qed.

Lemma good_cycles_keep_running_witness :
  Forall (good_cycle sample_config windows_c_locale) [cycle_0900; cycle_after]
  /\ snd (main sample_config windows_c_locale [cycle_0900; cycle_after])
     = Running
  /\ count_sends
       (fst (main sample_config windows_c_locale [cycle_0900; cycle_after]))
     = 2%nat.
Proof.
  assert (G : Forall (good_cycle sample_config windows_c_locale)
                     [cycle_0900; cycle_after])
    by (repeat constructor; [ exact good_cycle_0900 | exact good_cycle_after ]).
  split; [ exact G | ].
  exact (good_cycles_keep_running sample_config windows_c_locale
           [cycle_0900; cycle_after] G).
Defined.

(** X8: a [KeyboardInterrupt] ends [main] normally, with the line
    "Stopped by user" as its last output and no further cycle: raised
    while the message is built, nothing is sent; raised by the delivery, it
    is not taken for a failed delivery (no failure line, no pause). *)
Theorem keyboard_interrupt_stops_main c p e rest target :
  next_target (clock_main_ph e) = OK target ->
  (build_message c p e = Raise KeyboardInterrupt ->
   main c p (e :: rest)
   = (iteration_prefix e target ++ [Print LogStopped], Returned)) /\
  (forall msg,
     build_message c p e = OK msg ->
     send_message e (CHAT_ID c) msg = Raise KeyboardInterrupt ->
     main c p (e :: rest)
     = ((iteration_prefix e target ++ [Send (CHAT_ID c) msg])
          ++ [Print LogStopped], Returned)).
Proof.
  intros Ht. split.
  - intros Hb. rewrite main_cons.
    rewrite (main_iteration_no_message _ _ _ _ _ Ht Hb). reflexivity.
  - intros msg Hb Hs. rewrite main_cons.
    rewrite (main_iteration_message _ _ _ _ _ Ht Hb), Hs. reflexivity.
Qed.

Lemma keyboard_interrupt_stops_main_witness :
  next_target (clock_main_ph cycle_interrupted) = OK six_20240101 /\
  build_message sample_config windows_c_locale cycle_interrupted
  = OK message_0900_both /\
  send_message cycle_interrupted (CHAT_ID sample_config) message_0900_both
  = Raise KeyboardInterrupt /\
  main sample_config windows_c_locale [cycle_interrupted; cycle_after]
  = ((iteration_prefix cycle_interrupted six_20240101
        ++ [Send (CHAT_ID sample_config) message_0900_both])
       ++ [Print LogStopped], Returned).
Proof.
  do 3 (split; [ reflexivity | ]).
  exact (proj2 (keyboard_interrupt_stops_main sample_config windows_c_locale
                  cycle_interrupted [cycle_after] six_20240101 eq_refl)
           message_0900_both eq_refl eq_refl).
Defined.

(** X9: [main] over the cycles [xs ++ ys] runs [xs], and goes on with [ys]
    exactly when it is still running after [xs]; once an iteration has
    raised, no later cycle adds to the trace or changes the status. *)
Theorem main_app c p xs ys :
  main c p (xs ++ ys)
  = match snd (main c p xs) with
    | Running => (fst (main c p xs) ++ fst (main c p ys), snd (main c p ys))
    | _ => main c p xs
    end.
Proof.
  induction xs as [ | e xs IH ].
  - cbn. destruct (main c p ys). reflexivity.
  - rewrite <- app_comm_cons, !main_cons.
    destruct (snd (main_iteration c p e)) as [ [] | x ].
    + rewrite IH. destruct (main c p xs) as [t s]. cbn [fst snd].
      destruct s; cbn [fst snd]; [ rewrite app_assoc | | ]; reflexivity.
    + destruct x; reflexivity.
Qed.

(** * Further properties of [build_message] *)

Lemma forecasts_functional fetch locs fcs fcs' :
  forecasts fetch locs fcs -> forecasts fetch locs fcs' -> fcs = fcs'.
Proof.
  intros H. revert fcs'.
  induction H as [ | loc fc locs fcs Hfc _ IH ]; intros fcs' H';
    inversion H' as [ | loc' fc' locs' fcs'' Hfc' Hrest ]; subst;
    [ reflexivity | ].
  rewrite Hfc in Hfc'. inv Hfc'. f_equal. apply IH, Hrest.
Qed.

(** The body of the loop over the locations, through the forecast. *)
Lemma collect_body_forecast today_str fetch lds w loc fc :
  forecast_of fetch loc = OK fc ->
  collect_body today_str fetch (lds, w) loc
  = (n <- py_len (fc_times fc) ;;
     s <- for_each (hourly_body today_str (fc_times fc) (fc_temps fc)
                      (fc_rains fc)) (seq 0 n) (no_entries, w) ;;
     OK (lds ++ [ {| ld_name := name loc;
                     ld_times := filtered_times (fst s);
                     ld_temps := filtered_temps (fst s);
                     ld_rains := filtered_rains (fst s) |} ], snd s)).
Proof.
  unfold forecast_of, collect_body. intros H.
  bind_ok H as data Edata. bind_ok H as hourly Eh. bind_ok H as times Et.
  bind_ok H as temps Ep. bind_ok H as rains Er. inv H.
  cbn [rbind]; cbv beta. rewrite Eh. cbn [rbind]; cbv beta.
  rewrite Et. cbn [rbind]; cbv beta. rewrite Ep. cbn [rbind]; cbv beta.
  rewrite Er. cbn [rbind fc_times fc_temps fc_rains]; cbv beta.
  destruct (py_len times) as [ n | ]; cbn [rbind]; [ | reflexivity ].
  destruct (for_each _ (seq 0 n) _) as [ [f w'] | ]; reflexivity.
Qed.

Section WellFormed.

Variables (today_str : pystr) (ts ps rs : list json).

Hypothesis times_ok : Forall (time_ok today_str) ts.
Hypothesis temps_ok : Forall (fun v => v = JNull \/ finite_number v) ps.
Hypothesis rains_ok : Forall finite_number rs.
Hypothesis rains_cover : (List.length ts <= List.length rs)%nat.

Lemma finite_number_ge_30 v : finite_number v -> exists b, py_ge_30 v = OK b.
Proof. intros (q & [ z | q' ]); eexists; reflexivity. Qed.

Lemma hourly_body_well_formed s i :
  (i < List.length ts)%nat ->
  exists s', hourly_body today_str (JList ts) (JList ps) (JList rs) s i = OK s'.
Proof.
  intros Hi. unfold hourly_body. destruct s as [f w]. cbn [py_getitem py_len].
  destruct (nth_error ts i) as [ v | ] eqn:Ev;
    [ | apply nth_error_None in Ev; lia ].
  pose proof (proj1 (Forall_forall _ _) times_ok v (nth_error_In _ _ Ev))
    as (t & -> & Hh).
  cbn [rbind].
  destruct (startswith t today_str); [ | eexists; reflexivity ].
  destruct (Hh eq_refl) as (h & ->). cbn [rbind].
  destruct ((8 <=? h) && (h <=? 20)); [ | eexists; reflexivity ].
  assert (Ht : exists temp,
             (if (i <? List.length ps)%nat
              then match nth_error ps i with
                   | Some x => OK x
                   | None => Raise IndexError
                   end
              else OK JNull) = OK temp).
  { destruct (i <? List.length ps)%nat eqn:L; [ | eexists; reflexivity ].
    apply Nat.ltb_lt in L.
    destruct (nth_error ps i) eqn:E; [ eexists; reflexivity | ].
    apply nth_error_None in E. lia. }
  destruct Ht as (temp & ->). cbn [rbind].
  assert (Hr : (i <? List.length rs)%nat = true) by (apply Nat.ltb_lt; lia).
  rewrite Hr.
  destruct (nth_error rs i) as [ r | ] eqn:Er;
    [ | apply nth_error_None in Er; lia ].
  cbn [rbind].
  pose proof (proj1 (Forall_forall _ _) rains_ok r (nth_error_In _ _ Er)) as Hn.
  destruct (finite_number_ge_30 _ Hn) as (b & ->). cbn [rbind].
  eexists; reflexivity.
Qed.

Lemma hourly_loop_well_formed idx : forall s,
  Forall (fun i => (i < List.length ts)%nat) idx ->
  exists s',
    for_each (hourly_body today_str (JList ts) (JList ps) (JList rs)) idx s
    = OK s'.
Proof.
  induction idx as [ | i idx IH ]; intros s H; cbn [for_each].
  - eexists; reflexivity.
  - inversion H as [ | ? ? Hi Hrest ]; subst.
    destruct (hourly_body_well_formed s i Hi) as (s1 & ->). cbn [rbind].
    apply IH, Hrest.
Qed.

Lemma value_at_temps_shown j :
  exists text, render_value (value_at (JList ps) j) = OK text.
Proof.
  unfold value_at. cbn [py_len py_getitem].
  destruct (j <? List.length ps)%nat; [ | eexists; reflexivity ].
  destruct (nth_error ps j) as [ v | ] eqn:E; [ | eexists; reflexivity ].
  destruct (proj1 (Forall_forall _ _) temps_ok v (nth_error_In _ _ E))
    as [ -> | (q & Hq) ]; [ eexists; reflexivity | ].
  rewrite (render_value_number _ _ Hq). eexists; reflexivity.
Qed.

Lemma value_at_rains_shown j :
  (j < List.length ts)%nat ->
  exists text, render_value (value_at (JList rs) j) = OK text.
Proof.
  intros Hj. unfold value_at. cbn [py_len py_getitem].
  assert (Hr : (j <? List.length rs)%nat = true) by (apply Nat.ltb_lt; lia).
  rewrite Hr.
  destruct (nth_error rs j) as [ v | ] eqn:E;
    [ | apply nth_error_None in E; lia ].
  destruct (proj1 (Forall_forall _ _) rains_ok v (nth_error_In _ _ E))
    as (q & Hq).
  rewrite (render_value_number _ _ Hq). eexists; reflexivity.
Qed.

End WellFormed.

Lemma retained_in_range today_str times i :
  In i (retained today_str times) -> (i < entry_count times)%nat.
Proof.
  unfold retained. intros H. apply filter_In in H. destruct H as [H _].
  apply in_seq in H. lia.
Qed.

Lemma collect_body_well_formed today_str fetch s loc fc :
  forecast_of fetch loc = OK fc ->
  well_formed today_str fc ->
  exists s', collect_body today_str fetch s loc = OK s'.
Proof.
  intros Hfc (ts & ps & rs & Et & Ep & Er & Hts & Hps & Hrs & Hlen).
  destruct s as [lds w].
  rewrite (collect_body_forecast _ _ _ _ _ _ Hfc), Et, Ep, Er.
  cbn [py_len rbind].
  destruct (hourly_loop_well_formed today_str ts ps rs Hts Hrs Hlen
              (seq 0 (List.length ts)) (no_entries, w)) as (s1 & ->).
  - apply Forall_forall. intros i Hi. apply in_seq in Hi. lia.
  - eexists; reflexivity.
Qed.

Lemma line_body_well_formed today_str fc msg i :
  well_formed today_str fc ->
  (i < List.length (retained today_str (fc_times fc)))%nat ->
  exists msg', line_body (data_of today_str fc) msg i = OK msg'.
Proof.
  intros (ts & ps & rs & Et & Ep & Er & Hts & Hps & Hrs & Hlen) Hi.
  unfold line_body, list_item, data_of.
  cbn [ld_times ld_temps ld_rains]. rewrite !nth_error_map.
  destruct (nth_error (retained today_str (fc_times fc)) i) as [ j | ] eqn:Ej;
    [ | apply nth_error_None in Ej; lia ].
  cbn [option_map rbind].
  rewrite Ep, Er.
  destruct (value_at_temps_shown ps Hps j) as (temp & ->). cbn [rbind].
  assert (Hj : (j < List.length ts)%nat).
  { apply nth_error_In, retained_in_range in Ej.
    unfold entry_count in Ej. rewrite Et in Ej. exact Ej. }
  destruct (value_at_rains_shown ts rs Hrs Hlen j Hj) as (rain & ->).
  cbn [rbind]. eexists; reflexivity.
Qed.

Lemma lines_well_formed today_str fc :
  well_formed today_str fc ->
  forall idx msg,
    Forall (fun i => (i < List.length (retained today_str (fc_times fc)))%nat)
           idx ->
    exists msg',
      for_each (line_body (data_of today_str fc)) idx msg = OK msg'.
Proof.
  intros W. induction idx as [ | i idx IH ]; intros msg H; cbn [for_each].
  - eexists; reflexivity.
  - inversion H as [ | ? ? Hi Hrest ]; subst.
    destruct (line_body_well_formed _ _ msg _ W Hi) as (m & ->).
    cbn [rbind]. apply IH, Hrest.
Qed.

Lemma block_body_well_formed today_str fc msg :
  well_formed today_str fc ->
  exists msg', block_body msg (data_of today_str fc) = OK msg'.
Proof.
  intros W. unfold block_body.
  destruct (lines_well_formed _ _ W
              (seq 0 (List.length (ld_times (data_of today_str fc))))
              (msg ++ ld_name (data_of today_str fc) ++ u ":" ++ NL))
    as (m & ->).
  - apply Forall_forall. intros i Hi. apply in_seq in Hi.
    unfold data_of in Hi. cbn [ld_times] in Hi. rewrite length_map in Hi. lia.
  - eexists; reflexivity.
Qed.

(** X10: [build_message] does not fail on forecasts as the weather service
    sends them (three arrays, timestamps, temperatures that are numbers or
    null, a numeric rain probability for every time): it returns the
    header and the blocks of the forecasts. *)
Theorem well_formed_forecasts_build locations p e fcs :
  forecasts (fetch_weather e) locations fcs ->
  Forall (well_formed (today_of e)) fcs ->
  build_message_at locations p e
  = OK (header p e (existsb (rainy (today_of e)) fcs)
        ++ List.concat (map (spec_block (today_of e)) fcs)).
Proof.
  intros Hfcs W.
  assert (Hc : forall s,
             exists s', for_each (collect_body (today_of e) (fetch_weather e))
                          locations s = OK s').
  { clear p. induction Hfcs as [ | loc fc locs fcs Hfc _ IH ]; intros s;
      cbn [for_each]; [ eexists; reflexivity | ].
    inversion W as [ | ? ? Wfc Wrest ]; subst.
    destruct (collect_body_well_formed _ _ s _ _ Hfc Wfc) as (s1 & ->).
    cbn [rbind]. apply IH, Wrest. }
  assert (Hb : forall msg,
             exists msg', for_each block_body (map (data_of (today_of e)) fcs)
                            msg = OK msg').
  { clear Hfcs Hc. induction W as [ | fc fcs Wfc _ IH ]; intros msg;
      cbn [map for_each]; [ eexists; reflexivity | ].
    destruct (block_body_well_formed _ _ msg Wfc) as (m & ->).
    cbn [rbind]. apply IH. }
  destruct (build_message_at locations p e) as [ msg | x ] eqn:B.
  - apply build_message_shape in B. destruct B as (fcs' & Hfcs' & ->).
    rewrite (forecasts_functional _ _ _ _ Hfcs Hfcs'). reflexivity.
  - exfalso. unfold build_message_at in B. fold (today_of e) in B.
    destruct (Hc ([], false)) as ([lds w] & Ec).
    pose proof Ec as Ec'. apply collect_loop in Ec'.
    destruct Ec' as (fcs' & Hfcs' & -> & _).
    rewrite (forecasts_functional _ _ _ _ Hfcs' Hfcs) in Ec.
    rewrite Ec in B. cbn [rbind app] in B.
    destruct (Hb (strftime_date_line p (clock_msg_now e) ++ u " "
                  ++ weather_emoji w ++ NL ++ NL)) as (m & Em).
    rewrite Em in B. discriminate B.
Qed.

Lemma forecasts_wet :
  forecasts (fetch_weather cycle_wet) (LOCATIONS sample_config)
    [forecast_wet (u "Work"); forecast_wet (u "Home")].
Proof. repeat constructor. Qed.

Lemma well_formed_wet place :
  well_formed (today_of cycle_wet) (forecast_wet place).
Proof.
  unfold well_formed, forecast_wet. cbn [fc_times fc_temps fc_rains].
  eexists; eexists; eexists.
  split; [ reflexivity | ]. split; [ reflexivity | ]. split; [ reflexivity | ].
  split; [ | split; [ | split ] ].
  - repeat (apply Forall_cons;
            [ eexists; split; [ reflexivity | intros _; eexists; reflexivity ]
            | ]).
    apply Forall_nil.
  - repeat (apply Forall_cons;
            [ solve [ left; reflexivity
                    | right; eexists; apply number_float
                    | right; eexists; apply number_int ]
            | ]).
    apply Forall_nil.
  - repeat (apply Forall_cons; [ eexists; apply number_int | ]).
    apply Forall_nil.
  - cbn. lia.
Qed.

Lemma well_formed_forecasts_build_witness :
  forecasts (fetch_weather cycle_wet) (LOCATIONS sample_config)
    [forecast_wet (u "Work"); forecast_wet (u "Home")] /\
  Forall (well_formed (today_of cycle_wet))
    [forecast_wet (u "Work"); forecast_wet (u "Home")] /\
  build_message_at (LOCATIONS sample_config) windows_c_locale cycle_wet
  = OK message_wet.
Proof.
  assert (W : Forall (well_formed (today_of cycle_wet))
                [forecast_wet (u "Work"); forecast_wet (u "Home")])
    by (repeat constructor; apply well_formed_wet).
  split; [ exact forecasts_wet | ]. split; [ exact W | ].
  exact (well_formed_forecasts_build (LOCATIONS sample_config)
           windows_c_locale cycle_wet _ forecasts_wet W).
Defined.

(** ** Forecasts without a retained hour *)

Lemma hourly_body_outside today_str ts temps rains s i :
  Forall (outside today_str) ts ->
  (i < List.length ts)%nat ->
  hourly_body today_str (JList ts) temps rains s i = OK s.
Proof.
  intros Hout Hi. unfold hourly_body. destruct s as [f w]. cbn [py_getitem].
  destruct (nth_error ts i) as [ v | ] eqn:Ev;
    [ | apply nth_error_None in Ev; lia ].
  destruct (proj1 (Forall_forall _ _) Hout _ (nth_error_In _ _ Ev))
    as (t & -> & [ Hd | (h & Hh & Ho) ]); cbn [rbind].
  - rewrite Hd. reflexivity.
  - destruct (startswith t today_str); [ | reflexivity ].
    rewrite Hh. cbn [rbind].
    assert (R : (8 <=? h) && (h <=? 20) = false).
    { apply andb_false_iff. destruct Ho; [ left | right ];
        apply Z.leb_gt; lia. }
    rewrite R. reflexivity.
Qed.

Lemma hourly_loop_outside today_str ts temps rains idx : forall s,
  Forall (outside today_str) ts ->
  Forall (fun i => (i < List.length ts)%nat) idx ->
  for_each (hourly_body today_str (JList ts) temps rains) idx s = OK s.
Proof.
  induction idx as [ | i idx IH ]; intros s Hout H; cbn [for_each];
    [ reflexivity | ].
  inversion H as [ | ? ? Hi Hrest ]; subst.
  rewrite (hourly_body_outside _ _ _ _ _ _ Hout Hi). cbn [rbind].
  apply IH; assumption.
Qed.

Lemma forecast_of_name fetch loc fc :
  forecast_of fetch loc = OK fc -> fc_name fc = name loc.
Proof.
  unfold forecast_of. intros H.
  bind_ok H as a1 E1. bind_ok H as a2 E2. bind_ok H as a3 E3.
  bind_ok H as a4 E4. bind_ok H as a5 E5. inv H. reflexivity.
Qed.

Lemma collect_body_quiet today_str fetch lds w loc fc :
  forecast_of fetch loc = OK fc ->
  quiet today_str fc ->
  collect_body today_str fetch (lds, w) loc
  = OK (lds ++ [empty_data (name loc)], w).
Proof.
  intros Hfc (ts & Et & Hout).
  rewrite (collect_body_forecast _ _ _ _ _ _ Hfc), Et. cbn [py_len rbind].
  rewrite hourly_loop_outside; [ reflexivity | exact Hout | ].
  apply Forall_forall. intros i Hi. apply in_seq in Hi. lia.
Qed.

(** X11: when no hour of any location is retained (every time entry is a
    timestamp of another date or of an hour outside [8,20]),
    [build_message] reads neither the temperatures nor the rain
    probabilities (they may be null or missing) and returns the date line
    with the sun emoji and one empty block per location. *)
Theorem quiet_day_message locations p e fcs :
  forecasts (fetch_weather e) locations fcs ->
  Forall (quiet (today_of e)) fcs ->
  build_message_at locations p e
  = OK (strftime_date_line p (clock_msg_now e) ++ u " " ++ SUN_EMOJI
        ++ NL ++ NL
        ++ List.concat (map (fun loc => empty_block (name loc)) locations)).
Proof.
  intros Hfcs Q. unfold build_message_at. fold (today_of e).
  assert (Hc : forall lds w,
             for_each (collect_body (today_of e) (fetch_weather e)) locations
               (lds, w)
             = OK (lds ++ map (fun loc => empty_data (name loc)) locations, w)).
  { clear p. induction Hfcs as [ | loc fc locs fcs Hfc _ IH ]; intros lds w;
      cbn [for_each map]; [ rewrite app_nil_r; reflexivity | ].
    inversion Q as [ | ? ? Qfc Qrest ]; subst.
    rewrite (collect_body_quiet _ _ _ _ _ _ Hfc Qfc). cbn [rbind].
    rewrite (IH Qrest), <- app_assoc. reflexivity. }
  assert (Hb : forall msg,
             for_each block_body
               (map (fun loc => empty_data (name loc)) locations) msg
             = OK (msg ++ List.concat
                            (map (fun loc => empty_block (name loc))
                                 locations))).
  { clear. induction locations as [ | loc locs IH ]; intros msg;
      cbn [for_each map List.concat]; [ rewrite app_nil_r; reflexivity | ].
    rewrite block_body_empty. cbn [rbind].
    rewrite IH, <- app_assoc. reflexivity. }
  rewrite Hc. cbn [rbind app weather_emoji].
  rewrite Hb, <- !app_assoc. reflexivity.
Qed.

Lemma forecasts_stale :
  forecasts (fetch_weather cycle_stale) (LOCATIONS sample_config)
    [forecast_stale (u "Work"); forecast_stale (u "Home")].
Proof. repeat constructor. Qed.

Lemma quiet_stale place : quiet (today_of cycle_stale) (forecast_stale place).
Proof.
  exists stale_times. split; [ reflexivity | ].
  unfold stale_times.
  apply Forall_cons;
    [ eexists; split; [ reflexivity | left; reflexivity ] | ].
  apply Forall_cons;
    [ eexists; split; [ reflexivity | right; exists 7; split;
                                        [ reflexivity | lia ] ] | ].
  apply Forall_cons;
    [ eexists; split; [ reflexivity | right; exists 21; split;
                                        [ reflexivity | lia ] ] | ].
  apply Forall_nil.
Qed.

Lemma quiet_day_message_witness :
  forecasts (fetch_weather cycle_stale) (LOCATIONS sample_config)
    [forecast_stale (u "Work"); forecast_stale (u "Home")] /\
  Forall (quiet (today_of cycle_stale))
    [forecast_stale (u "Work"); forecast_stale (u "Home")] /\
  build_message_at (LOCATIONS sample_config) windows_c_locale cycle_stale
  = OK message_quiet.
Proof.
  assert (Q : Forall (quiet (today_of cycle_stale))
                [forecast_stale (u "Work"); forecast_stale (u "Home")])
    by (repeat (apply Forall_cons; [ apply quiet_stale | ]); apply Forall_nil).
  split; [ exact forecasts_stale | ]. split; [ exact Q | ].
  exact (quiet_day_message (LOCATIONS sample_config) windows_c_locale
           cycle_stale _ forecasts_stale Q).
Defined.

(** ** The parallel lists and the errors of the rendering *)

Lemma py_round_error v x : py_round v = Raise x -> rounding_error x.
Proof.
  unfold rounding_error.
  destruct v as [ | b | z | [ q | | | ] | s | l | d ]; cbn; intros H; inv H;
    auto.
Qed.

Lemma render_value_error v x : render_value v = Raise x -> rounding_error x.
Proof.
  destruct v; cbn [render_value]; try discriminate;
    match goal with
    | |- context [py_round ?v] =>
        destruct (py_round v) eqn:E; cbn [rbind]; try discriminate;
        intros H; inv H; eapply py_round_error; eauto
    end.
Qed.

Lemma line_body_error today_str fc msg i x :
  (i < List.length (retained today_str (fc_times fc)))%nat ->
  line_body (data_of today_str fc) msg i = Raise x ->
  rounding_error x.
Proof.
  intros Hi. unfold line_body, list_item, data_of.
  cbn [ld_times ld_temps ld_rains]. rewrite !nth_error_map.
  destruct (nth_error (retained today_str (fc_times fc)) i) as [ j | ] eqn:Ej;
    [ | apply nth_error_None in Ej; lia ].
  cbn [option_map rbind].
  destruct (render_value (value_at (fc_temps fc) j)) eqn:Et; cbn [rbind];
    [ | intros H; inv H; eapply render_value_error; eauto ].
  destruct (render_value (value_at (fc_rains fc) j)) eqn:Er; cbn [rbind];
    [ discriminate | intros H; inv H; eapply render_value_error; eauto ].
Qed.

Lemma lines_error today_str fc idx x : forall msg,
  Forall (fun i => (i < List.length (retained today_str (fc_times fc)))%nat)
         idx ->
  for_each (line_body (data_of today_str fc)) idx msg = Raise x ->
  rounding_error x.
Proof.
  induction idx as [ | i idx IH ]; intros msg H; cbn [for_each];
    [ discriminate | ].
  inversion H as [ | ? ? Hi Hrest ]; subst.
  destruct (line_body (data_of today_str fc) msg i) as [ m | y ] eqn:E;
    cbn [rbind].
  - apply IH, Hrest.
  - intros Hx. inv Hx. eapply line_body_error; eauto.
Qed.

Lemma block_body_error today_str fc msg x :
  block_body msg (data_of today_str fc) = Raise x -> rounding_error x.
Proof.
  unfold block_body.
  destruct (for_each _ _ _) as [ m | y ] eqn:E; cbn [rbind];
    [ discriminate | ].
  intros H. inv H. eapply lines_error; [ | exact E ].
  apply Forall_forall. intros i Hi. apply in_seq in Hi.
  unfold data_of in Hi. cbn [ld_times] in Hi. rewrite length_map in Hi. lia.
Qed.

Lemma blocks_error today_str fcs x : forall msg,
  for_each block_body (map (data_of today_str) fcs) msg = Raise x ->
  rounding_error x.
Proof.
  induction fcs as [ | fc fcs IH ]; intros msg; cbn [map for_each];
    [ discriminate | ].
  destruct (block_body msg (data_of today_str fc)) as [ m | y ] eqn:E;
    cbn [rbind].
  - apply IH.
  - intros H. inv H. eapply block_body_error; eauto.
Qed.

Lemma data_of_same_lengths today_str fc : same_lengths (data_of today_str fc).
Proof.
  unfold same_lengths, data_of. cbn. rewrite !length_map. auto.
Qed.

(** X12: the loop over the hours keeps the three lists of a location
    parallel, so the rendering loop never indexes out of range: once the
    forecasts are collected, [build_message] can only fail by [round], with
    [TypeError], [OverflowError] or [ValueError]. *)
Theorem collected_lists_are_parallel today_str fetch locations lds w :
  for_each (collect_body today_str fetch) locations ([], false) = OK (lds, w) ->
  Forall same_lengths lds /\
  forall msg x,
    for_each block_body lds msg = Raise x -> rounding_error x.
Proof.
  intros H. apply collect_loop in H. destruct H as (fcs & _ & -> & _).
  cbn [app]. split.
  - apply Forall_forall. intros d Hd. apply in_map_iff in Hd.
    destruct Hd as (fc & <- & _). apply data_of_same_lengths.
  - intros msg x. apply blocks_error.
Qed.

Lemma collected_lists_are_parallel_witness :
  for_each (collect_body (today_of (cycle_on response_hot))
              (fetch_weather (cycle_on response_hot)))
    [home_location] ([], false) = OK (collected_hot, false) /\
  Forall same_lengths collected_hot /\
  for_each block_body collected_hot [] = Raise TypeError /\
  rounding_error TypeError.
Proof.
  destruct (collected_lists_are_parallel
              (today_of (cycle_on response_hot))
              (fetch_weather (cycle_on response_hot))
              [home_location] collected_hot false eq_refl) as [Hp Hr].
  split; [ reflexivity | ]. split; [ exact Hp | ].
  split; [ reflexivity | ].
  exact (Hr [] TypeError eq_refl).
Defined.

(** ** Keys that are present but null *)

Lemma build_message_collect_raises locations p e pre loc post s x :
  locations = pre ++ loc :: post ->
  for_each (collect_body (today_of e) (fetch_weather e)) pre ([], false)
  = OK s ->
  collect_body (today_of e) (fetch_weather e) s loc = Raise x ->
  build_message_at locations p e = Raise x.
Proof.
  intros -> Hpre Hloc. unfold build_message_at. fold (today_of e).
  rewrite for_each_app, Hpre. cbn [rbind for_each]. rewrite Hloc.
  reflexivity.
Qed.

Lemma collect_body_not_a_dict today_str fetch s loc data :
  fetch (lat loc) (lon loc) = OK data ->
  is_dict data = false ->
  collect_body today_str fetch s loc = Raise AttributeError.
Proof.
  intros Hf Hd. unfold collect_body. destruct s as [lds w]. rewrite Hf.
  destruct data; try discriminate; reflexivity.
Qed.

Lemma collect_body_hourly_not_a_dict today_str fetch s loc entries v :
  fetch (lat loc) (lon loc) = OK (JDict entries) ->
  assoc (u "hourly") entries = Some v ->
  is_dict v = false ->
  collect_body today_str fetch s loc = Raise AttributeError.
Proof.
  intros Hf Hv Hd. unfold collect_body. destruct s as [lds w]. rewrite Hf.
  cbn [rbind dict_get]. rewrite Hv.
  destruct v; try discriminate; reflexivity.
Qed.

Lemma collect_body_time_scalar today_str fetch s loc entries h v :
  fetch (lat loc) (lon loc) = OK (JDict entries) ->
  assoc (u "hourly") entries = Some (JDict h) ->
  assoc (u "time") h = Some v ->
  scalar v = true ->
  collect_body today_str fetch s loc = Raise TypeError.
Proof.
  intros Hf Hh Hv Hs. unfold collect_body. destruct s as [lds w]. rewrite Hf.
  cbn [rbind dict_get]. rewrite Hh. cbn [rbind dict_get]. rewrite Hv.
  destruct v; try discriminate; reflexivity.
Qed.

(** X13: the defaults of [.get] stand in for a missing key only.  A
    response that is not an object, or whose ["hourly"] is present but not
    an object (null, say), makes [build_message] raise [AttributeError]; an
    ["hourly"] whose ["time"] is present but null, a boolean or a number
    makes it raise [TypeError]. *)
Theorem present_keys_are_not_defaulted locations p e pre loc post s data :
  locations = pre ++ loc :: post ->
  for_each (collect_body (today_of e) (fetch_weather e)) pre ([], false)
  = OK s ->
  fetch_weather e (lat loc) (lon loc) = OK data ->
  (is_dict data = false ->
   build_message_at locations p e = Raise AttributeError) /\
  (forall entries v,
     data = JDict entries ->
     assoc (u "hourly") entries = Some v ->
     is_dict v = false ->
     build_message_at locations p e = Raise AttributeError) /\
  (forall entries h v,
     data = JDict entries ->
     assoc (u "hourly") entries = Some (JDict h) ->
     assoc (u "time") h = Some v ->
     scalar v = true ->
     build_message_at locations p e = Raise TypeError).
Proof.
  intros Hl Hpre Hf. repeat split.
  - intros Hd. eapply build_message_collect_raises; eauto.
    eapply collect_body_not_a_dict; eauto.
  - intros entries v -> Hv Hd. eapply build_message_collect_raises; eauto.
    eapply collect_body_hourly_not_a_dict; eauto.
  - intros entries h v -> Hh Hv Hs. eapply build_message_collect_raises; eauto.
    eapply collect_body_time_scalar; eauto.
Qed.

Lemma present_keys_are_not_defaulted_witness :
  fetch_weather (cycle_on response_null_hourly) (lat home_location)
    (lon home_location) = OK response_null_hourly /\
  assoc (u "hourly") [ (u "hourly", JNull) ] = Some JNull /\
  build_message_at [home_location] windows_c_locale
    (cycle_on response_null_hourly) = Raise AttributeError.
Proof.
  do 2 (split; [ reflexivity | ]).
  destruct (present_keys_are_not_defaulted [home_location] windows_c_locale
              (cycle_on response_null_hourly) [] home_location [] ([], false)
              response_null_hourly eq_refl eq_refl eq_refl) as (_ & H & _).
  exact (H [ (u "hourly", JNull) ] JNull eq_refl eq_refl eq_refl).
Defined.

(** ** The date line and the body *)

Lemma for_each_ext {S X : Type} (f g : S -> X -> result S) xs :
  (forall s x, f s x = g s x) ->
  forall s, for_each f xs s = for_each g xs s.
Proof.
  intros H. induction xs as [ | x xs IH ]; intros s; cbn [for_each];
    [ reflexivity | ].
  rewrite H. destruct (g s x); cbn [rbind]; auto.
Qed.

Lemma collect_body_ext today_str fetch fetch' s loc :
  (forall la lo, fetch la lo = fetch' la lo) ->
  collect_body today_str fetch s loc = collect_body today_str fetch' s loc.
Proof.
  intros H. unfold collect_body. destruct s as [lds w]. rewrite H.
  reflexivity.
Qed.

(** X14: the message is the platform's date line, which comes from the
    first clock reading, followed by a body that depends only on the
    responses of the network and on the date of the second clock reading:
    two runs that agree on these return the same body after their date
    lines, or raise the same exception. *)
Theorem body_depends_on_forecasts_and_date locations p p' e e' :
  (forall la lo, fetch_weather e la lo = fetch_weather e' la lo) ->
  strftime_Ymd (clock_msg_today e) = strftime_Ymd (clock_msg_today e') ->
  exists body,
    build_message_at locations p e
    = framed (@app N) body (strftime_date_line p (clock_msg_now e)) /\
    build_message_at locations p' e'
    = framed (@app N) body (strftime_date_line p' (clock_msg_now e')).
Proof.
  intros Hf Hd. exists (build_message_at locations blank_platform e).
  split; [ apply build_message_at_date_line | ].
  rewrite build_message_at_date_line. f_equal.
  unfold build_message_at, blank_platform. cbn [strftime_date_line].
  rewrite <- Hd.
  rewrite (for_each_ext
             (collect_body (strftime_Ymd (clock_msg_today e)) (fetch_weather e'))
             (collect_body (strftime_Ymd (clock_msg_today e)) (fetch_weather e)));
    [ reflexivity | ].
  intros s x. apply collect_body_ext. intros la lo. symmetry. apply Hf.
Qed.

Lemma body_depends_on_forecasts_and_date_witness :
  strftime_Ymd (clock_msg_today cycle_0900)
  = strftime_Ymd (clock_msg_today blank_cycle_0900) /\
  exists body,
    build_message_at [home_location] windows_c_locale cycle_0900
    = framed (@app N) body
        (strftime_date_line windows_c_locale (clock_msg_now cycle_0900)) /\
    build_message_at [home_location] blank_platform blank_cycle_0900
    = framed (@app N) body
        (strftime_date_line blank_platform (clock_msg_now blank_cycle_0900)).
Proof.
  split; [ reflexivity | ].
  exact (body_depends_on_forecasts_and_date [home_location] windows_c_locale
           blank_platform cycle_0900 blank_cycle_0900
           (fun _ _ => eq_refl) eq_refl).
Defined.

(** The hour of a timestamp of today must be read by [int]: a separator
    that [str.isspace] accepts but [int] does not skip makes
    [build_message] raise [ValueError]. *)
Example separator_before_the_hour :
  build_message_at [home_location] windows_c_locale
    (cycle_on response_separator) = Raise ValueError.
Proof. reflexivity. Qed.
